(** * Rack Designer: the project container manager

    A shallow embedding of the [ProjectManager] class of
    [src/lib/project.ts] and of the [Path] class it imports from
    [$lib/io], with the properties the specification states about them.
    The older manager that works on raw path strings is not modelled; it
    is referred to where it does what the current one misses.

    The manager talks to collaborators that are not part of the
    repository: the Tauri path API ([join], [sep], [basename], [extname]),
    the Tauri file-system plugin ([exists], [mkdir], [create],
    [writeTextFile], [readTextFile], [copyFile], [remove], [readDir]),
    the dialog plugin ([open]), the UUID generator and the clock.  The
    first two are modelled in [Module Tauri] by their documented
    contract, over an in-memory file tree; the others are read from the
    [World].

    Asynchrony.  Every method of the source is [async].  A call that the
    source [await]s is sequenced and its rejection propagates to the
    caller.  A call that the source does not [await] is modelled by
    [spawn]: its effect takes place in program order, and its rejection is
    dropped, because nothing observes the promise. *)

From Stdlib Require Import ZArith Lia Ascii String.
From stdpp Require Import base option list strings gmap.

Open Scope string_scope.
Open Scope list_scope.

(** ** Outcomes of promises *)

(** What a promise of this program can be rejected with: one of the
    messages that the repository passes to [Promise.reject], or a failure
    reported by a collaborator. *)
Inductive Rejection :=
| Msg (m : string)      (* Promise.reject(m) in Path or ProjectManager *)
| FsFailure             (* plugin-fs rejected the call *)
| PathFailure           (* api/path rejected the call *)
| SyntaxError           (* JSON.parse threw *)
| TypeError.            (* a property of [undefined] was read *)

Inductive Result (A : Type) :=
| Ok (a : A)
| Err (e : Rejection).
Arguments Ok {A} a.
Arguments Err {A} e.

(** The error taxonomy of the specification. *)
Inductive ErrorKind :=
| AlreadyExists | NotFound | InvalidProject | UserCancelled | IOFailure.

Definition MSG_TOUCH_EXISTS : string :=
  "The file at this path already exists. Set `existOk` to `true` to ignore this.".
Definition MSG_MKDIR_EXISTS : string :=
  "The path must not exist to create a directory there. Set `existOk` to `true` to ignore this.".
Definition MSG_REMOVE_MISSING : string :=
  "The file or directory does not exist. Set `missingOk` to `true` to ignore this.".
Definition MSG_NO_MANIFEST : string :=
  "The given project does not have a manifest folder and cannot be opened.".
Definition MSG_USER_CLOSED : string :=
  "User closed file select prompt.".
Definition MSG_IMPORT_NO_MANIFEST : string :=
  "Invalid project folder: manifest.json not found".

Definition kind_of (e : Rejection) : ErrorKind :=
  match e with
  | Msg m =>
      if decide (m = MSG_TOUCH_EXISTS) then AlreadyExists
      else if decide (m = MSG_MKDIR_EXISTS) then AlreadyExists
      else if decide (m = MSG_REMOVE_MISSING) then NotFound
      else if decide (m = MSG_NO_MANIFEST) then InvalidProject
      else if decide (m = MSG_IMPORT_NO_MANIFEST) then InvalidProject
      else if decide (m = MSG_USER_CLOSED) then UserCancelled
      else IOFailure
  | FsFailure => IOFailure
  | PathFailure => IOFailure
  | SyntaxError => InvalidProject
  | TypeError => IOFailure
  end.

(** ** JavaScript values the code relies on *)

Module JS.

(** [a[i]] on an array: [undefined] outside [0 .. length-1], in
    particular at every negative index. *)
Definition index {A} (l : list A) (i : Z) : option A :=
  if (i <? 0)%Z then None else l !! Z.to_nat i.

(** [s.split(_sep())], the separator of the platform being [/]. *)
Fixpoint split (s : string) : list string :=
  match s with
  | EmptyString => [""]
  | String c s' =>
      if Ascii.eqb c "/"%char then "" :: split s'
      else match split s' with
           | h :: t => String c h :: t
           | [] => [String c ""]
           end
  end.

(** [...s] on a primitive string: its characters, one string each. *)
Fixpoint chars (s : string) : list string :=
  match s with
  | EmptyString => []
  | String c s' => String c "" :: chars s'
  end.

(** [s[i]] on a primitive string. *)
Definition char_at (s : string) (i : Z) : option string := index (chars s) i.

Definition is_word_char (c : Ascii.ascii) : bool :=
  let n := Ascii.nat_of_ascii c in
  (((97 <=? n) && (n <=? 122)) || ((65 <=? n) && (n <=? 90))
   || ((48 <=? n) && (n <=? 57)) || (n =? 45) || (n =? 95))%nat.

(** [s.replace(/[^a-zA-Z0-9-_]/g, '_')]. *)
Fixpoint replace_non_word (s : string) : string :=
  match s with
  | EmptyString => EmptyString
  | String c s' =>
      String (if is_word_char c then c else "_"%char) (replace_non_word s')
  end.

(** [!x] where [x] is an object, a promise for instance: every object is
    truthy. *)
Definition not_object : bool := negb true.

End JS.

(** ** Data model ([src/lib/project.ts], [$lib/io]) *)

(** The run-time value of the [pathParts] and [basePathParts] fields of a
    [Path].  They are declared [string[]]; the constructor stores a
    primitive string unchanged, because [x instanceof String] holds of
    [String] objects only. *)
Inductive Parts :=
| Arr (l : list string)
| Prim (s : string).

Record Path := {
  basePathParts : Parts;
  pathParts : Parts;
}.

(** A time stamp is the clock reading it renders: [Date.toISOString] is
    one-to-one on instants, so two stamps are equal exactly when the
    readings are. *)
Definition Timestamp := Z.
Bind Scope Z_scope with Timestamp.

Module Texture.
Record t := {
  id : string;              (* UUID of the texture *)
  originalName : string;    (* original filename, for display *)
  extension : string;       (* file extension *)
  size : option Z;          (* size?: number *)
}.
End Texture.

Module Manifest.
Record t := {
  version : string;
  name : string;
  id : string;
  rackSize : Z;
  textures : list Texture.t;
  createdAt : Timestamp;
  modifiedAt : Timestamp;
}.

(** [manifest.textures = ts] and [manifest.modifiedAt = t], the two
    fields the manager assigns after the manifest is built. *)
Definition set_textures (ts : list Texture.t) (m : t) : t :=
  {| version := version m; name := name m; id := id m;
     rackSize := rackSize m; textures := ts;
     createdAt := createdAt m; modifiedAt := modifiedAt m |}.

Definition set_modifiedAt (ts : Timestamp) (m : t) : t :=
  {| version := version m; name := name m; id := id m;
     rackSize := rackSize m; textures := textures m;
     createdAt := createdAt m; modifiedAt := ts |}.
End Manifest.

Record Project := {
  path : Path;
  manifest : Manifest.t;
}.

Definition set_manifest (m : Manifest.t) (p : Project) : Project :=
  {| path := path p; manifest := m |}.

(** ** JSON text *)

(** The text of a file.  A text written by [JSON.stringify] is kept as the
    value it encodes, and [JSON.parse] gives that value back; any other
    text is kept as it is. *)
Module JSON.

Inductive Value :=
| OfManifest (m : Manifest.t)
| OfProject (p : Project).

Inductive Text :=
| Plain (s : string)
| Encoded (v : Value).

Definition stringify (v : Value) : Text := Encoded v.

Definition parse (t : Text) : Result Value :=
  match t with
  | Encoded v => Ok v
  | Plain _ => Err SyntaxError
  end.

(** [const manifest: Manifest = JSON.parse(text)]: the annotation checks
    nothing, and any document is accepted.  The embedding has no untyped
    objects; the document of a project is read as the manifest it holds. *)
Definition parse_manifest (t : Text) : Result Manifest.t :=
  match parse t with
  | Ok (OfManifest m) => Ok m
  | Ok (OfProject p) => Ok (manifest p)
  | Err e => Err e
  end.

End JSON.

(** ** The collaborators *)

Module Tauri.

(** *** api/path *)

Definition sep : string := "/".

(** One step of the normalisation that [join] performs on the
    components of the concatenated path. *)
Definition push_component (acc : list string) (c : string) : list string :=
  if decide (c = "") then acc
  else if decide (c = ".") then acc
  else if decide (c = "..") then removelast acc
  else acc ++ [c].

Definition components (s : string) : list string :=
  foldl push_component [] (JS.split s).

Definition is_absolute (s : string) : bool :=
  match s with
  | String c _ => Ascii.eqb c "/"%char
  | EmptyString => false
  end.

Fixpoint intercalate (l : list string) : string :=
  match l with
  | [] => ""
  | [x] => x
  | x :: r => x +:+ sep +:+ intercalate r
  end.

Definition render (abs : bool) (cs : list string) : string :=
  (if abs then sep else "") +:+ intercalate cs.

Fixpoint concat_with_sep (parts : list string) : string :=
  match parts with
  | [] => ""
  | p :: r => p +:+ sep +:+ concat_with_sep r
  end.

(** [join(...parts)]: the parts separated by the platform separator,
    normalised (no empty, [.] or [..] component, no trailing separator). *)
Definition join (parts : list string) : string :=
  let raw := concat_with_sep parts in
  render (is_absolute raw) (components raw).

(** The components a path string names, [..] kept (as the operating
    system reads it before resolving anything). *)
Definition named_components (path : string) : list string :=
  filter (fun c => c <> "" /\ c <> ".") (JS.split path).

(** [basename(path)]: the final component; rejected when the path has
    none or ends in [..]. *)
Definition basename (path : string) : Result string :=
  match last (named_components path) with
  | Some c => if decide (c = "..") then Err PathFailure else Ok c
  | None => Err PathFailure
  end.

(** The text before and after the last [.] of a name. *)
Fixpoint rsplit_dot (s : string) : option (string * string) :=
  match s with
  | EmptyString => None
  | String c s' =>
      match rsplit_dot s' with
      | Some (b, a) => Some (String c b, a)
      | None => if Ascii.eqb c "."%char then Some ("", s') else None
      end
  end.

(** [extname(path)]: the extension of the final component, without the
    dot (['conf'] for ['app.conf']); rejected when there is none.  The
    command needs its [path] argument: called with [undefined] it is
    rejected as well. *)
Definition extname (path : option string) : Result string :=
  match path with
  | None => Err PathFailure
  | Some p =>
      match basename p with
      | Ok n =>
          match rsplit_dot n with
          | Some (b, a) => if decide (b = "") then Err PathFailure else Ok a
          | None => Err PathFailure
          end
      | Err e => Err e
      end
  end.

(** *** plugin-fs, over an in-memory tree *)

(** A location is the list of components of a path string; the working
    directory of the process is the root [[]] of the tree, so relative
    and absolute strings name locations of one tree. *)
Inductive Node :=
| Dir
| File (t : JSON.Text).

Abbreviation FS := (gmap (list string) Node).

Definition locate (path : string) : list string := components path.

Definition node_at (fs : FS) (l : list string) : option Node :=
  if decide (l = []) then Some Dir else fs !! l.

Definition parent (l : list string) : list string := removelast l.

Definition exists_ (fs : FS) (path : string) : bool :=
  match node_at fs (locate path) with
  | Some _ => true
  | None => false
  end.

(** [create_dir_all]: every missing directory on the way is created; a
    file on the way makes it fail. *)
Fixpoint mkdir_all (fs : FS) (above todo : list string) : option FS :=
  match todo with
  | [] => Some fs
  | c :: r =>
      let l := above ++ [c] in
      match fs !! l with
      | Some (File _) => None
      | Some Dir => mkdir_all fs l r
      | None => mkdir_all (<[l := Dir]> fs) l r
      end
  end.

Definition mkdir (fs : FS) (path : string) (recursive : bool) : Result FS :=
  let l := locate path in
  if recursive then
    match mkdir_all fs [] l with
    | Some fs' => Ok fs'
    | None => Err FsFailure
    end
  else
    match node_at fs l, node_at fs (parent l) with
    | None, Some Dir => Ok (<[l := Dir]> fs)
    | _, _ => Err FsFailure
    end.

(** A file is written where its parent is a directory and no directory
    is in its place. *)
Definition put_file (fs : FS) (l : list string) (t : JSON.Text) : Result FS :=
  match node_at fs l, node_at fs (parent l) with
  | Some Dir, _ => Err FsFailure
  | _, Some Dir => Ok (<[l := File t]> fs)
  | _, _ => Err FsFailure
  end.

(** [create(path)]: a new empty file, or the existing one truncated. *)
Definition create (fs : FS) (path : string) : Result FS :=
  put_file fs (locate path) (JSON.Plain "").

Definition writeTextFile (fs : FS) (path : string) (t : JSON.Text) : Result FS :=
  put_file fs (locate path) t.

Definition readTextFile (fs : FS) (path : string) : Result JSON.Text :=
  match node_at fs (locate path) with
  | Some (File t) => Ok t
  | _ => Err FsFailure
  end.

Definition copyFile (fs : FS) (src dst : string) : Result FS :=
  match node_at fs (locate src) with
  | Some (File t) => put_file fs (locate dst) t
  | _ => Err FsFailure
  end.

Record DirEntry := {
  entry_name : string;
  isDirectory : bool;
}.

Definition is_dir (n : Node) : bool :=
  match n with Dir => true | File _ => false end.

Definition child_entry (l : list string) (kn : list string * Node) : option DirEntry :=
  match last kn.1 with
  | Some c =>
      if decide (parent kn.1 = l)
      then Some {| entry_name := c; isDirectory := is_dir kn.2 |}
      else None
  | None => None
  end.

Definition entries (fs : FS) (l : list string) : list DirEntry :=
  omap (child_entry l) (map_to_list fs).

Definition readDir (fs : FS) (path : string) : Result (list DirEntry) :=
  match node_at fs (locate path) with
  | Some Dir => Ok (entries fs (locate path))
  | _ => Err FsFailure
  end.

(** [lstat(path)]: what is at the path; rejected when nothing is. *)
Record FileInfo := {
  stat_isDirectory : bool;
  stat_isFile : bool;
}.

Definition lstat (fs : FS) (path : string) : Result FileInfo :=
  match node_at fs (locate path) with
  | Some n => Ok {| stat_isDirectory := is_dir n; stat_isFile := negb (is_dir n) |}
  | None => Err FsFailure
  end.

(** [remove(path, {recursive})]: a file, an empty directory, or with
    [recursive] a directory and all below it. *)
Definition remove (fs : FS) (path : string) (recursive : bool) : Result FS :=
  let l := locate path in
  if decide (l = []) then Err FsFailure
  else
    match fs !! l with
    | None => Err FsFailure
    | Some (File _) => Ok (delete l fs)
    | Some Dir =>
        if recursive then
          Ok (filter (fun kn => ¬ l `prefix_of` kn.1) fs)
        else
          match entries fs l with
          | [] => Ok (delete l fs)
          | _ :: _ => Err FsFailure
          end
    end.

(** Modelled from the spec: the recursive directory copy behind
    [rawCopyDir], the [copy_directory] command of the application's
    native side, which is not among the sources.  The tree below the
    source is copied below the destination. *)
Definition copy_directory (fs : FS) (source destination : string) : Result FS :=
  let s := locate source in
  let d := locate destination in
  match node_at fs s with
  | Some Dir =>
      match mkdir_all fs [] d with
      | Some fs' =>
          Ok (map_fold
                (fun k n acc =>
                   if decide (s `prefix_of` k)
                   then <[d ++ drop (length s) k := n]> acc else acc)
                fs' fs)
      | None => Err FsFailure
      end
  | _ => Err FsFailure
  end.

End Tauri.

(** ** The world outside the program *)

Record World := {
  fs : Tauri.FS;            (* the file tree *)
  time : Z;                 (* what the clock shows *)
  ticks : list nat;         (* how far it moves on after each reading *)
  uuids : nat -> string;    (* the identifiers [generateUuid] hands out *)
  issued : nat;             (* how many it has handed out *)
  picked : option string;   (* the user's answer to the next dialog;
                               [None] when the dialog is dismissed *)
}.

Definition set_fs (f : Tauri.FS) (w : World) : World :=
  {| fs := f; time := time w; ticks := ticks w; uuids := uuids w;
     issued := issued w; picked := picked w |}.

(** ** Promises: state and rejection *)

(** An [async] computation over a state [S]: it ends fulfilled or
    rejected, and in both cases leaves a state behind. *)
Definition M (S A : Type) : Type := S -> Result A * S.

Definition ret {S A} (a : A) : M S A := fun s => (Ok a, s).

Definition reject {S A} (e : Rejection) : M S A := fun s => (Err e, s).

Definition bind {S A B} (m : M S A) (k : A -> M S B) : M S B :=
  fun s =>
    match m s with
    | (Ok a, s') => k a s'
    | (Err e, s') => (Err e, s')
    end.

(** A promise that is created and never awaited. *)
Definition spawn {S A} (m : M S A) : M S unit :=
  fun s => (Ok tt, (m s).2).

(** [try { await m } catch (error) { ... }], the outcome handed to the
    code that follows ([console.error] in the handler is not modelled). *)
Definition attempt {S A} (m : M S A) : M S (Result A) :=
  fun s => (Ok (m s).1, (m s).2).

Definition settled {S A} (r : Result A) : M S A := fun s => (r, s).

Declare Scope promise_scope.
Delimit Scope promise_scope with promise.
Notation "'await' x <- m ;; k" := (bind m (fun x => k))
  (at level 100, x name, m at next level, k at level 200,
   right associativity) : promise_scope.
Notation "'unawaited' m ;; k" := (bind (spawn m) (fun _ => k))
  (at level 100, m at next level, k at level 200,
   right associativity) : promise_scope.
Open Scope promise_scope.

Definition fs_call (f : Tauri.FS -> Result Tauri.FS) : M World unit :=
  fun w =>
    match f (fs w) with
    | Ok f' => (Ok tt, set_fs f' w)
    | Err e => (Err e, w)
    end.

Definition fs_read {A} (f : Tauri.FS -> Result A) : M World A :=
  fun w => (f (fs w), w).

(** [readTextFile] and [copyFile], which [project.ts] imports from the
    file-system plugin itself. *)
Definition readTextFile (path : string) : M World JSON.Text :=
  fs_read (fun f => Tauri.readTextFile f path).

Definition copyFile (src dst : string) : M World unit :=
  fs_call (fun f => Tauri.copyFile f src dst).

(** [generateUuid()] *)
Definition generateUuid : M World string :=
  fun w =>
    (Ok (uuids w (issued w)),
     {| fs := fs w; time := time w; ticks := ticks w; uuids := uuids w;
        issued := S (issued w); picked := picked w |}).

(** [new Date().toISOString()] *)
Definition now : M World Timestamp :=
  fun w =>
    (Ok (time w),
     {| fs := fs w; time := (time w + Z.of_nat (hd 0%nat (ticks w)))%Z;
        ticks := tl (ticks w); uuids := uuids w;
        issued := issued w; picked := picked w |}).

(** [open({...})] of the dialog plugin: the selected path, or [null]. *)
Definition openFilePicker : M World (option string) :=
  fun w => (Ok (picked w), w).

(** ** The [Path] class of [$lib/io] *)

Module Io.

(** The values the constructor is called with: [string[] | String] is
    an array, a primitive string (which the type admits) or a [String]
    object. *)
Inductive PathArg :=
| OfArray (l : list string)
| OfPrimitive (s : string)
| OfStringObject (s : string).

Inductive BaseArg :=
| BasePath (p : Path)
| BaseString (s : string).

Definition new_Path (strPathParts : PathArg) (basePath : option BaseArg) : Path :=
  {| basePathParts :=
       match basePath with
       | Some (BasePath b) => pathParts b
       | Some (BaseString s) => Arr (JS.split s)
       | None => Arr []
       end;
     pathParts :=
       match strPathParts with
       | OfStringObject s => Arr (JS.split s)
       | OfArray l => Arr l
       | OfPrimitive s => Prim s
       end |}.

(** [...parts] *)
Definition spread (ps : Parts) : list string :=
  match ps with
  | Arr l => l
  | Prim s => JS.chars s
  end.

(** [parts[i]] *)
Definition at_index (ps : Parts) (i : Z) : option string :=
  match ps with
  | Arr l => JS.index l i
  | Prim s => JS.char_at s i
  end.

Definition absolute (p : Path) : string :=
  Tauri.join (spread (basePathParts p) ++ spread (pathParts p)).

Definition relativePath (p : Path) : string :=
  Tauri.join (spread (pathParts p)).

Definition exists_ (p : Path) : M World bool :=
  fun w => (Ok (Tauri.exists_ (fs w) (absolute p)), w).

Definition join (p : Path) (strPathParts : list string) : Path :=
  let joined := Tauri.join (spread (pathParts p) ++ strPathParts) in
  new_Path (OfArray (JS.split joined)) None.

Definition touch (p : Path) (existOk : bool) : M World unit :=
  await e <- exists_ p;;
  if e && negb existOk then reject (Msg MSG_TOUCH_EXISTS)
  else fs_call (fun f => Tauri.create f (absolute p)).

Definition mkdir (p : Path) (existOk recursive : bool) : M World unit :=
  await e <- exists_ p;;
  if e && negb existOk then reject (Msg MSG_MKDIR_EXISTS)
  else fs_call (fun f => Tauri.mkdir f (absolute p) recursive).

Definition remove (p : Path) (missingOk recursive : bool) : M World unit :=
  await e <- exists_ p;;
  if negb e && negb missingOk then reject (Msg MSG_REMOVE_MISSING)
  else fs_call (fun f => Tauri.remove f (relativePath p) recursive).

Definition isDir (p : Path) : M World bool :=
  await stats <- fs_read (fun f => Tauri.lstat f (relativePath p));;
  ret (Tauri.stat_isDirectory stats).

(** [return !this.isDir()]: the promise of [isDir] is not awaited, and
    the negation is that of the promise itself. *)
Definition isFile (p : Path) : M World bool :=
  unawaited isDir p;;
  ret JS.not_object.

Definition basename (p : Path) : Result string :=
  Tauri.basename (absolute p).

Definition extension (p : Path) : Result string :=
  Tauri.extname (at_index (pathParts p) (-1)).

Definition readDir (p : Path) : M World (list Tauri.DirEntry) :=
  fs_read (fun f => Tauri.readDir f (absolute p)).

Definition rawWriteTextFile (path : string) (t : JSON.Text) : M World unit :=
  fs_call (fun f => Tauri.writeTextFile f path t).

Definition rawCopyDir (fromPath toPath : string) : M World unit :=
  fs_call (fun f => Tauri.copy_directory f fromPath toPath).

End Io.

(** ** [ProjectManager] ([src/lib/project.ts]) *)

(** [addTexture] and [removeTexture] receive a [project] object and assign
    to the fields of its manifest.  Their state is that object together
    with the world, so that what they leave in the caller's object is
    visible whether they end fulfilled or rejected. *)
Record Session := {
  project : Project;
  world : World;
}.

Definition in_world {A} (m : M World A) : M Session A :=
  fun s => ((m (world s)).1, {| project := project s; world := (m (world s)).2 |}).

Definition the_project : M Session Project :=
  fun s => (Ok (project s), s).

Definition assign_manifest (f : Manifest.t -> Manifest.t) : M Session unit :=
  fun s =>
    (Ok tt,
     {| project := set_manifest (f (manifest (project s))) (project s);
        world := world s |}).

Module ProjectManager.

Definition sanitize (str : string) : string := JS.replace_non_word str.

(** The two static folders are built on first use and kept; they are
    the same value at every call. *)
Definition getProjectsFolder : Path :=
  Io.new_Path (Io.OfArray ["Rack Designer"; "Projects"]) None.

Definition getLocalDataFolder : Path :=
  Io.new_Path (Io.OfArray []) None.

Definition saveManifest (p : Project) : M World unit :=
  let manifestPath := Io.join (path p) ["manifest.json"] in
  await _ <- Io.rawWriteTextFile (Io.absolute manifestPath)
               (JSON.stringify (JSON.OfManifest (manifest p)));;
  ret tt.

Definition createProject (name : string) : M World Project :=
  await projectId <- generateUuid;;
  let sanitizedName := sanitize name in
  let projectPath := Io.join getProjectsFolder [sanitizedName] in
  let manifestPath := Io.join getProjectsFolder ["manifest.json"] in
  let assetsPath := Io.join getProjectsFolder ["assets"] in
  unawaited Io.mkdir getProjectsFolder true true;;
  unawaited Io.mkdir projectPath false true;;
  unawaited Io.mkdir assetsPath false true;;
  unawaited Io.touch manifestPath false;;
  await created <- now;;
  await modified <- now;;
  let manifest :=
    {| Manifest.version := "1.0";
       Manifest.name := name;
       Manifest.id := projectId;
       Manifest.rackSize := 42;
       Manifest.textures := [];
       Manifest.createdAt := created;
       Manifest.modifiedAt := modified |} in
  let project := {| path := projectPath; manifest := manifest |} in
  await _ <- saveManifest project;;
  ret project.

Definition setCurrentProject (p : Project) : M World unit :=
  let currentInfoPath := Io.join getLocalDataFolder ["current.json"] in
  unawaited Io.rawWriteTextFile (Io.absolute currentInfoPath)
              (JSON.stringify (JSON.OfProject p));;
  ret tt.

(** Both branches of [openProject], after the project path is known. *)
Definition open_at (projectPath : Path) : M World Project :=
  let manifestPath := Io.join projectPath ["manifest.json"] in
  await present <- Io.exists_ manifestPath;;
  unawaited (if negb present then reject (Msg MSG_NO_MANIFEST) else ret tt);;
  await text <- readTextFile (Io.absolute manifestPath);;
  await manifest <- settled (JSON.parse_manifest text);;
  let project := {| path := projectPath; manifest := manifest |} in
  unawaited setCurrentProject project;;
  ret project.

Definition openProject (folderName : string + Path) : M World Project :=
  match folderName with
  | inr folder => open_at folder
  | inl folder => open_at (Io.join getProjectsFolder [folder])
  end.

Definition getCurrentProject : M World Project :=
  let currentInfoPath := Io.join getLocalDataFolder ["current.json"] in
  await text <- readTextFile (Io.absolute currentInfoPath);;
  await v <- settled (JSON.parse text);;
  match v with
  | JSON.OfProject p => ret p
  | JSON.OfManifest m => ret {| path := getLocalDataFolder; manifest := m |}
  end.

Definition importProject : M World Path :=
  await selected <- openFilePicker;;
  match selected with
  | None => reject (Msg MSG_USER_CLOSED)
  | Some sel =>
      let projectPath := Io.new_Path (Io.OfPrimitive sel) None in
      let manifestPath := Io.join projectPath ["manifest.json"] in
      await present <- Io.exists_ manifestPath;;
      if negb present then reject (Msg MSG_IMPORT_NO_MANIFEST)
      else
        await manifestContent <- readTextFile (Io.absolute manifestPath);;
        await manifest <- settled (JSON.parse_manifest manifestContent);;
        let pathFrom := sel in
        let pathTo := Io.join getProjectsFolder [sanitize (Manifest.name manifest)] in
        await _ <- Io.rawCopyDir pathFrom (Io.absolute pathTo);;
        ret projectPath
  end.

Definition getTexturePath (p : Project) (texture : Texture.t) : Path :=
  Io.join (path p)
    ["assets"; "texture_" +:+ Texture.id texture +:+ Texture.extension texture].

Definition addTexture : M Session (option Texture.t) :=
  await selected <- in_world openFilePicker;;
  match selected with
  | None => ret None
  | Some sel =>
      let sourcePath := Io.new_Path (Io.OfPrimitive sel) None in
      await textureId <- in_world generateUuid;;
      await ext <- settled (Io.extension sourcePath);;
      let destinationFilename := "texture_" +:+ textureId +:+ ext in
      await p <- the_project;;
      let destinationPath := Io.join (path p) ["assets"; destinationFilename] in
      await _ <- in_world (copyFile (Io.absolute sourcePath)
                             (Io.absolute destinationPath));;
      await original <- settled (Io.basename sourcePath);;
      await extension <- settled (Io.extension sourcePath);;
      let texture :=
        {| Texture.id := textureId; Texture.originalName := original;
           Texture.extension := extension; Texture.size := None |} in
      await _ <- assign_manifest
                   (fun m => Manifest.set_textures (Manifest.textures m ++ [texture]) m);;
      await modified <- in_world now;;
      await _ <- assign_manifest (Manifest.set_modifiedAt modified);;
      await p' <- the_project;;
      await _ <- in_world (saveManifest p');;
      ret (Some texture)
  end.

(** [textures.findIndex(t => t.id === textureId)] *)
Fixpoint findIndex (ts : list Texture.t) (textureId : string) (i : Z) : Z :=
  match ts with
  | [] => (-1)%Z
  | t :: r =>
      if decide (Texture.id t = textureId) then i
      else findIndex r textureId (i + 1)%Z
  end.

Definition removeTexture (textureId : string) : M Session bool :=
  await p <- the_project;;
  let textureIndex := findIndex (Manifest.textures (manifest p)) textureId 0 in
  if decide (textureIndex = (-1)%Z) then ret false
  else
    match JS.index (Manifest.textures (manifest p)) textureIndex with
    | None => reject TypeError
    | Some texture =>
        let texturePath := getTexturePath p texture in
        await removed <- attempt (in_world (Io.remove texturePath false false));;
        match removed with
        | Err _ => ret false
        | Ok _ =>
            await _ <- assign_manifest
                         (fun m => Manifest.set_textures
                                     (delete (Z.to_nat textureIndex) (Manifest.textures m)) m);;
            await modified <- in_world now;;
            await _ <- assign_manifest (Manifest.set_modifiedAt modified);;
            await p' <- the_project;;
            await _ <- in_world (saveManifest p');;
            ret true
        end
    end.

(** The loop of [listProjects] over the directory entries. *)
Fixpoint open_entries (entries : list Tauri.DirEntry) (projects : list Project)
  : M World (list Project) :=
  match entries with
  | [] => ret projects
  | entry :: rest =>
      if Tauri.isDirectory entry then
        await p <- openProject (inl (Tauri.entry_name entry));;
        open_entries rest (projects ++ [p])
      else open_entries rest projects
  end.

Definition listProjects : M World (list Project) :=
  let projectsPath := getProjectsFolder in
  await present <- Io.exists_ projectsPath;;
  if negb present then ret []
  else
    await entries <- Io.readDir projectsPath;;
    if decide (length entries = 0%nat) then ret []
    else open_entries entries [].

End ProjectManager.

(** ** The callers ([src/lib/example-usage.ts], [src/routes/projects/+page.ts]) *)

(** What the examples print with [console.log] and [console.error] is
    not modelled; a [try] block is [attempt], and its [catch] the [Err]
    branch. *)
Module ExampleUsage.

Definition createNewProjectExample : M World (option Project) :=
  await outcome <- attempt (ProjectManager.createProject "My Rack Project");;
  match outcome with
  | Ok container => ret (Some container)
  | Err _ => ret None
  end.

Definition openExistingProjectExample : M World (option Project) :=
  await outcome <- attempt
    (await selected <- ProjectManager.importProject;;
     ProjectManager.openProject (inr selected));;
  match outcome with
  | Ok p => ret (Some p)
  | Err _ => ret None
  end.

Definition addTextureExample : M Session (option Texture.t) :=
  await outcome <- attempt ProjectManager.addTexture;;
  match outcome with
  | Ok texture => ret texture
  | Err _ => ret None
  end.

Definition removeTextureExample (textureId : string) : M Session bool :=
  await outcome <- attempt (ProjectManager.removeTexture textureId);;
  match outcome with
  | Ok success => ret success
  | Err _ => ret false
  end.

Definition listProjectsExample : M World unit :=
  await _ <- attempt ProjectManager.listProjects;;
  ret tt.

Definition completeWorkflowExample : M World unit :=
  await _ <- listProjectsExample;;
  await _ <- createNewProjectExample;;
  ret tt.

(** [load] of the projects page: the list, or the rejection of
    [listProjects]. *)
Definition load : M World (list Project) :=
  await projects <- ProjectManager.listProjects;;
  ret projects.

End ExampleUsage.

(** * Vocabulary of the properties *)

(** ** Projects and their files *)

(** Where [openProject] looks for the manifest of its argument. *)
Definition project_folder (folderName : string + Path) : Path :=
  match folderName with
  | inr folder => folder
  | inl folder => Io.join ProjectManager.getProjectsFolder [folder]
  end.

Definition manifest_file (folder : Path) : string :=
  Io.absolute (Io.join folder ["manifest.json"]).

Definition texture_ids (p : Project) : list string :=
  map Texture.id (Manifest.textures (manifest p)).

Definition unique_ids (p : Project) : Prop := NoDup (texture_ids p).

(** The record that [findIndex] selects: the first one with the id. *)
Definition first_with_id (ts : list Texture.t) (textureId : string)
    (i : nat) (t : Texture.t) : Prop :=
  ts !! i = Some t /\ Texture.id t = textureId
  /\ forall j t', (j < i)%nat -> ts !! j = Some t' -> Texture.id t' <> textureId.

(** The project object after [removeTexture] has spliced out the record
    at index [i] and assigned [modifiedAt]. *)
Definition without_texture (i : nat) (modified : Timestamp) (p : Project) : Project :=
  set_manifest
    (Manifest.set_modifiedAt modified
       (Manifest.set_textures (delete i (Manifest.textures (manifest p))) (manifest p)))
    p.

(** One operation of the manager on a project [p] in a world [w], and the
    project it leaves: the one [createProject] returns, or the object
    [p] as [addTexture] or [removeTexture] leave it, whether they end
    fulfilled or rejected.  [addTexture] is taken in worlds whose next
    generated identifier is not yet used in [p]. *)
Inductive operation (w : World) (p : Project) : Project -> Prop :=
| op_createProject (name : string) (p' : Project) (w' : World) :
    ProjectManager.createProject name w = (Ok p', w') ->
    operation w p p'
| op_addTexture (r : Result (option Texture.t)) (s' : Session) :
    uuids w (issued w) ∉ texture_ids p ->
    ProjectManager.addTexture {| project := p; world := w |} = (r, s') ->
    operation w p (project s')
| op_removeTexture (textureId : string) (r : Result bool) (s' : Session) :
    ProjectManager.removeTexture textureId {| project := p; world := w |} = (r, s') ->
    operation w p (project s').

(** ** Path segments *)

(** A plain segment: not empty, without separator, and neither [.] nor
    [..]; [join] keeps such segments as they are. *)
Fixpoint no_sep (s : string) : bool :=
  match s with
  | EmptyString => true
  | String c r => negb (Ascii.eqb c "/"%char) && no_sep r
  end.

Definition plain (s : string) : Prop :=
  s <> "" /\ s <> "." /\ s <> ".." /\ no_sep s = true.

(** ** File trees and worlds *)

(** [f'] is [f] with entries added at free locations of length at most
    [n]; no entry of [f] is changed or lost. *)
Definition adds (n : nat) (f f' : Tauri.FS) : Prop :=
  forall k, f' !! k = f !! k \/ (f !! k = None /\ length k <= n).

(** The same, every added entry being a directory. *)
Definition adds_dirs (n : nat) (f f' : Tauri.FS) : Prop :=
  forall k, f' !! k = f !! k
            \/ (f !! k = None /\ f' !! k = Some Tauri.Dir /\ length k <= n).

(** [w'] differs from [w] in the file tree at most. *)
Definition same_but_fs (w w' : World) : Prop := w' = set_fs (fs w') w.

(** ** The steps of [createProject] *)

(** The world that [createProject] has prepared when it builds the
    manifest: an identifier drawn, and the four un-awaited calls made. *)
Definition prepared (name : string) (w : World) : World :=
  let root := ProjectManager.getProjectsFolder in
  let w1 := (generateUuid w).2 in
  let w2 := (Io.mkdir root true true w1).2 in
  let w3 := (Io.mkdir (Io.join root [ProjectManager.sanitize name]) false true w2).2 in
  let w4 := (Io.mkdir (Io.join root ["assets"]) false true w3).2 in
  (Io.touch (Io.join root ["manifest.json"]) false w4).2.

(** The manifest and the project it then builds: the two time stamps are
    the next two readings of the clock. *)
Definition first_manifest (name : string) (w : World) : Manifest.t :=
  {| Manifest.version := "1.0"; Manifest.name := name;
     Manifest.id := uuids w (issued w); Manifest.rackSize := 42;
     Manifest.textures := [];
     Manifest.createdAt := time w;
     Manifest.modifiedAt := time w + Z.of_nat (hd 0%nat (ticks w)) |}.

Definition first_project (name : string) (w : World) : Project :=
  {| path := Io.join ProjectManager.getProjectsFolder [ProjectManager.sanitize name];
     manifest := first_manifest name w |}.

(** ** Worlds and projects of the examples *)

(** Nothing on disk; the clock shows 1000 and moves on by one millisecond
    after the first reading; the dialog is dismissed. *)
Definition empty_world : World :=
  {| fs := ∅; time := 1000; ticks := [1%nat];
     uuids := fun n => String (ascii_of_nat (48 + n)) "-uuid";
     issued := 0; picked := None |}.

Definition with_pick (sel : option string) (w : World) : World :=
  {| fs := fs w; time := time w; ticks := ticks w; uuids := uuids w;
     issued := issued w; picked := sel |}.

(** The project that [createProject("demo")] builds in the empty world,
    and the world it leaves. *)
Definition demo_project : Project :=
  {| path := {| basePathParts := Arr [];
                pathParts := Arr ["Rack Designer"; "Projects"; "demo"] |};
     manifest :=
       {| Manifest.version := "1.0"; Manifest.name := "demo";
          Manifest.id := "0-uuid"; Manifest.rackSize := 42;
          Manifest.textures := [];
          Manifest.createdAt := 1000; Manifest.modifiedAt := 1001 |} |}.

Definition demo_world : World :=
  (ProjectManager.createProject "demo" empty_world).2.

(** The manifest that a second [createProject("demo")] builds. *)
Definition second_manifest : Manifest.t :=
  {| Manifest.version := "1.0"; Manifest.name := "demo";
     Manifest.id := "1-uuid"; Manifest.rackSize := 42;
     Manifest.textures := [];
     Manifest.createdAt := 1001; Manifest.modifiedAt := 1001 |}.

(** A world in which the user selects an existing image. *)
Definition photo_world : World :=
  with_pick (Some "/tmp/photo.png")
    (set_fs (<[ ["tmp"; "photo.png"] := Tauri.File (JSON.Plain "PNG") ]>
               (<[ ["tmp"] := Tauri.Dir ]> (fs demo_world)))
       demo_world).

Definition photo_session : Session :=
  {| project := demo_project; world := photo_world |}.

(** A project with two textures, of which only the first has its file. *)
Definition texture_a : Texture.t :=
  {| Texture.id := "a"; Texture.originalName := "photo.png";
     Texture.extension := ".png"; Texture.size := None |}.

Definition texture_b : Texture.t :=
  {| Texture.id := "b"; Texture.originalName := "logo.svg";
     Texture.extension := ".svg"; Texture.size := None |}.

Definition gallery_project : Project :=
  set_manifest
    (Manifest.set_textures [texture_a; texture_b] (manifest demo_project))
    demo_project.

Definition gallery_world : World :=
  set_fs (<[ ["Rack Designer"; "Projects"; "demo"; "assets"; "texture_a.png"]
               := Tauri.File (JSON.Plain "PNG") ]>
            (<[ ["Rack Designer"; "Projects"; "demo"; "assets"] := Tauri.Dir ]>
               (fs demo_world)))
    demo_world.

Definition gallery : Session :=
  {| project := gallery_project; world := gallery_world |}.

(** ** Vocabulary of the further properties *)

(** A string made of the characters that [sanitize] keeps. *)
Fixpoint word_only (s : string) : bool :=
  match s with
  | EmptyString => true
  | String c r => JS.is_word_char c && word_only r
  end.

(** The characters of a string that name a component when each of them is
    taken as a path segment: all but the separator and the dot. *)
Definition char_components (s : string) : list string :=
  filter (fun c => c <> Tauri.sep /\ c <> ".") (JS.chars s).

(** A folder picked by the user that holds a project, [/tmp/proj]; the
    dialog returns its path. *)
Definition picked_project_world : World :=
  with_pick (Some "/tmp/proj")
    (set_fs (<[ ["tmp"; "proj"; "manifest.json"]
                  := Tauri.File (JSON.stringify (JSON.OfManifest (manifest demo_project))) ]>
               (<[ ["tmp"; "proj"] := Tauri.Dir ]>
                  (<[ ["tmp"] := Tauri.Dir ]> ∅)))
       empty_world).

(** A world in which a directory stands where the manifest of the
    project [demo] goes. *)
Definition blocked_manifest_world : World :=
  set_fs (<[ ["Rack Designer"; "Projects"; "demo"; "manifest.json"] := Tauri.Dir ]>
            (<[ ["Rack Designer"; "Projects"; "demo"] := Tauri.Dir ]>
               (<[ ["Rack Designer"; "Projects"] := Tauri.Dir ]>
                  (<[ ["Rack Designer"] := Tauri.Dir ]> ∅))))
    empty_world.

(** The sub-directories among the entries of a listing, and the path
    under which [listProjects] opens each of them. *)
Definition directories (es : list Tauri.DirEntry) : list Tauri.DirEntry :=
  filter (fun e => Tauri.isDirectory e = true) es.

Definition entry_path (e : Tauri.DirEntry) : Path :=
  Io.join ProjectManager.getProjectsFolder [Tauri.entry_name e].

(** A projects folder that holds two projects and a stray file. *)
Definition alpha_manifest : Manifest.t :=
  {| Manifest.version := "1.0"; Manifest.name := "alpha";
     Manifest.id := "a-uuid"; Manifest.rackSize := 42;
     Manifest.textures := [];
     Manifest.createdAt := 10; Manifest.modifiedAt := 10 |}.

Definition beta_manifest : Manifest.t :=
  {| Manifest.version := "1.0"; Manifest.name := "beta";
     Manifest.id := "b-uuid"; Manifest.rackSize := 12;
     Manifest.textures := [texture_a];
     Manifest.createdAt := 20; Manifest.modifiedAt := 30 |}.

Definition shelf_world : World :=
  set_fs
    (<[ ["Rack Designer"; "Projects"; "notes.txt"] := Tauri.File (JSON.Plain "todo") ]>
       (<[ ["Rack Designer"; "Projects"; "beta"; "manifest.json"]
             := Tauri.File (JSON.stringify (JSON.OfManifest beta_manifest)) ]>
          (<[ ["Rack Designer"; "Projects"; "beta"] := Tauri.Dir ]>
             (<[ ["Rack Designer"; "Projects"; "alpha"; "manifest.json"]
                   := Tauri.File (JSON.stringify (JSON.OfManifest alpha_manifest)) ]>
                (<[ ["Rack Designer"; "Projects"; "alpha"] := Tauri.Dir ]>
                   (<[ ["Rack Designer"; "Projects"] := Tauri.Dir ]>
                      (<[ ["Rack Designer"] := Tauri.Dir ]> ∅)))))))
    empty_world.

(** The gallery with a directory standing where its manifest goes. *)
Definition blocked_gallery : Session :=
  {| project := gallery_project;
     world := set_fs (<[ ["Rack Designer"; "Projects"; "demo"; "manifest.json"]
                           := Tauri.Dir ]> (fs gallery_world)) gallery_world |}.

(** A second texture with the extension of [texture_a]. *)
Definition texture_c : Texture.t :=
  {| Texture.id := "c"; Texture.originalName := "panel.png";
     Texture.extension := ".png"; Texture.size := None |}.

(** * Properties *)

(** ** Reasoning about promises *)

Lemma bind_ok {S A B} (m : M S A) (k : A -> M S B) s a s' :
  m s = (Ok a, s') -> bind m k s = k a s'.
Proof. intros H. unfold bind. by rewrite H. Qed.

Lemma bind_err {S A B} (m : M S A) (k : A -> M S B) s e s' :
  m s = (Err e, s') -> bind m k s = (Err e, s').
Proof. intros H. unfold bind. by rewrite H. Qed.

Lemma bind_spawn {S A B} (m : M S A) (k : unit -> M S B) s :
  bind (spawn m) k s = k tt (m s).2.
Proof. reflexivity. Qed.

(** ** The [Path] class *)

Lemma index_negative {A} (l : list A) (i : Z) : (i < 0)%Z -> JS.index l i = None.
Proof.
  intros H. unfold JS.index.
  destruct (Z.ltb_spec i 0) as [_ | Hge]; [reflexivity | lia].
Qed.

Lemma at_index_negative (ps : Parts) (i : Z) : (i < 0)%Z -> Io.at_index ps i = None.
Proof.
  intros H. destruct ps as [l | s]; simpl.
  - by apply index_negative.
  - unfold JS.char_at. by apply index_negative.
Qed.

(** [extension()] hands [this.pathParts[-1]] to [extname]. *)
Lemma extension_rejected (p : Path) : Io.extension p = Err PathFailure.
Proof.
  unfold Io.extension. rewrite at_index_negative by lia. reflexivity.
Qed.

(** C8 (the code departs from the claim).  [extension()] reads
    [this.pathParts[-1]], which is [undefined] for every array and every
    string, and hands it to [extname]: whatever the segments of the path
    are, the call is rejected, and the suffix of the final segment is
    never returned. *)
Theorem extension_never_returns (p : Path) :
  Io.at_index (pathParts p) (-1) = None
  /\ Io.extension p = Tauri.extname None
  /\ forall suffix, Io.extension p <> Ok suffix.
Proof.
  assert (Hundefined : Io.at_index (pathParts p) (-1) = None)
    by (apply at_index_negative; lia).
  split_and!; [exact Hundefined | |].
  - unfold Io.extension. by rewrite Hundefined.
  - intros suffix. unfold Io.extension. rewrite Hundefined. discriminate.
Qed.

(** [basename()], on the other hand, does name the final segment. *)
Example basename_of_photo :
  Io.basename (Io.new_Path (Io.OfArray ["assets"; "photo.png"]) None) = Ok "photo.png"
  /\ Tauri.extname (Some "photo.png") = Ok "png"
  /\ Io.extension (Io.new_Path (Io.OfArray ["assets"; "photo.png"]) None) = Err PathFailure.
Proof. split_and!; reflexivity. Qed.

(** ** Dismissing the dialog *)

(** C7, as stated, fails: when the dialog is dismissed, [importProject]
    is rejected; it has no result at all. *)
Lemma importProject_cancel_is_rejected :
  picked empty_world = None
  /\ ~ exists v, (ProjectManager.importProject empty_world).1 = Ok v.
Proof.
  split; [reflexivity |]. intros [v Hv]. vm_compute in Hv. discriminate.
Qed.

(** C7 (amended).  When the dialog is dismissed, [addTexture] is fulfilled
    with [null] and touches neither the project nor the world, while
    [importProject] is rejected with the message of a closed prompt, a
    user cancellation, and leaves the world as it was. *)
Theorem picker_dismissed (s : Session) :
  picked (world s) = None ->
  ProjectManager.addTexture s = (Ok None, s)
  /\ ProjectManager.importProject (world s) = (Err (Msg MSG_USER_CLOSED), world s)
  /\ kind_of (Msg MSG_USER_CLOSED) = UserCancelled.
Proof.
  intros H. destruct s as [p w]. cbn [world] in H. split_and!.
  - unfold ProjectManager.addTexture, bind, in_world, openFilePicker.
    cbn [fst snd world project]. rewrite H. reflexivity.
  - unfold ProjectManager.importProject, bind, openFilePicker.
    cbn [world]. rewrite H. reflexivity.
  - reflexivity.
Qed.

Example createProject_demo :
  (ProjectManager.createProject "demo" empty_world).1 = Ok demo_project.
Proof. reflexivity. Qed.

Lemma picker_dismissed_witness :
  let s := {| project := demo_project; world := demo_world |} in
  picked (world s) = None
  /\ ProjectManager.addTexture s = (Ok None, s)
  /\ ProjectManager.importProject (world s) = (Err (Msg MSG_USER_CLOSED), world s)
  /\ kind_of (Msg MSG_USER_CLOSED) = UserCancelled.
Proof.
  intros s. split; [reflexivity |].
  apply (picker_dismissed s). reflexivity.
Defined.

(** ** Opening a project *)

Lemma missing_is_unreadable (f : Tauri.FS) (file : string) :
  Tauri.exists_ f file = false -> Tauri.readTextFile f file = Err FsFailure.
Proof.
  unfold Tauri.exists_, Tauri.readTextFile.
  destruct (Tauri.node_at f (Tauri.locate file)); [discriminate | reflexivity].
Qed.

(** C2 (the code departs from the claim).  On a folder without
    [manifest.json], [openProject] builds the rejection that names the
    missing manifest but does not return it; it goes on to read the file,
    and what rejects the call is the failure of that read: an I/O failure,
    not an invalid-project error.  No project is returned and the world is
    left as it was. *)
Theorem openProject_without_manifest (w : World) (folderName : string + Path) :
  Tauri.exists_ (fs w) (manifest_file (project_folder folderName)) = false ->
  ProjectManager.openProject folderName w = (Err FsFailure, w)
  /\ kind_of FsFailure = IOFailure
  /\ kind_of (Msg MSG_NO_MANIFEST) = InvalidProject.
Proof.
  intros H. split; [| split; reflexivity].
  assert (Hopen : forall folder,
             Tauri.exists_ (fs w) (manifest_file folder) = false ->
             ProjectManager.open_at folder w = (Err FsFailure, w)).
  { intros folder Hf. unfold ProjectManager.open_at.
    rewrite (bind_ok _ _ w false w) by (unfold Io.exists_; fold (manifest_file folder); by rewrite Hf).
    simpl negb. cbv iota. rewrite bind_spawn. simpl snd.
    apply bind_err. unfold readTextFile, fs_read.
    fold (manifest_file folder). by rewrite missing_is_unreadable. }
  destruct folderName as [n | p]; simpl in *; by apply Hopen.
Qed.

Lemma openProject_without_manifest_witness :
  Tauri.exists_ (fs empty_world) (manifest_file (project_folder (inl "ghost"))) = false
  /\ ProjectManager.openProject (inl "ghost") empty_world = (Err FsFailure, empty_world)
  /\ kind_of FsFailure = IOFailure
  /\ kind_of (Msg MSG_NO_MANIFEST) = InvalidProject.
Proof.
  split; [reflexivity |].
  apply (openProject_without_manifest empty_world (inl "ghost")). reflexivity.
Defined.

(** The sibling check in [importProject] does return its rejection. *)
Example importProject_without_manifest :
  (ProjectManager.importProject (with_pick (Some "/a") empty_world)).1
  = Err (Msg MSG_IMPORT_NO_MANIFEST).
Proof. reflexivity. Qed.

(** ** Creating a project where one exists *)

(** C3 (the code departs from the claim).  [createProject] does not await
    [projectPath.mkdir()], so the rejection that [mkdir] raises for an
    existing folder reaches nobody.  Called a second time with the same
    name, [createProject] is fulfilled with a new project on the same
    folder and has replaced the manifest that was there. *)
Theorem createProject_on_existing_folder :
  let folder := Io.join ProjectManager.getProjectsFolder [ProjectManager.sanitize "demo"] in
  let again := ProjectManager.createProject "demo" demo_world in
  Tauri.exists_ (fs demo_world) (Io.absolute folder) = true
  /\ (Io.mkdir folder false true demo_world).1 = Err (Msg MSG_MKDIR_EXISTS)
  /\ again.1 = Ok {| path := folder; manifest := second_manifest |}
  /\ Tauri.readTextFile (fs demo_world) (manifest_file folder)
     = Ok (JSON.stringify (JSON.OfManifest (manifest demo_project)))
  /\ Tauri.readTextFile (fs again.2) (manifest_file folder)
     = Ok (JSON.stringify (JSON.OfManifest second_manifest)).
Proof. split_and!; vm_compute; reflexivity. Qed.

Lemma put_file_rejection (f : Tauri.FS) (l : list string) (t : JSON.Text) (e : Rejection) :
  Tauri.put_file f l t = Err e -> e = FsFailure.
Proof. unfold Tauri.put_file. repeat case_match; congruence. Qed.

(** Whatever the name and the world, the only rejection [createProject]
    can end with is the failure to write the manifest. *)
Lemma createProject_rejections (name : string) (w : World) (e : Rejection) :
  (ProjectManager.createProject name w).1 = Err e -> e = FsFailure.
Proof.
  unfold ProjectManager.createProject, ProjectManager.saveManifest.
  unfold bind at 1. cbn [generateUuid].
  repeat (rewrite bind_spawn).
  unfold bind, now, Io.rawWriteTextFile, fs_call, ret.
  match goal with
  | |- context [Tauri.writeTextFile ?f ?file ?t] =>
      destruct (Tauri.writeTextFile f file t) as [f' | e'] eqn:Hwrite
  end; cbv beta iota delta [fst]; intros H; [discriminate H |].
  injection H as <-. by apply put_file_rejection in Hwrite.
Qed.

(** ** Listing projects *)

Lemma listProjects_without_root (w : World) :
  Tauri.exists_ (fs w) (Io.absolute ProjectManager.getProjectsFolder) = false ->
  ProjectManager.listProjects w = (Ok [], w).
Proof.
  intros H. unfold ProjectManager.listProjects, bind, Io.exists_.
  rewrite H. reflexivity.
Qed.

Lemma listProjects_empty_root (w : World) :
  Tauri.readDir (fs w) (Io.absolute ProjectManager.getProjectsFolder) = Ok [] ->
  ProjectManager.listProjects w = (Ok [], w).
Proof.
  intros H. unfold ProjectManager.listProjects, bind, Io.exists_, Io.readDir, fs_read.
  destruct (Tauri.exists_ _ _); cbn [negb]; [| reflexivity].
  rewrite H. reflexivity.
Qed.


(** ** Adding a texture *)

(** As soon as the user has selected a file, [addTexture] asks the source
    path for its extension and is rejected there: an identifier has been
    drawn, nothing has been copied and the project object is untouched. *)
Lemma addTexture_after_selection (s : Session) (sel : string) :
  picked (world s) = Some sel ->
  ProjectManager.addTexture s
  = (Err PathFailure,
     {| project := project s; world := (generateUuid (world s)).2 |}).
Proof.
  intros H. destruct s as [p w]. cbn [world project] in *.
  unfold ProjectManager.addTexture.
  unfold bind at 1. unfold in_world at 1, openFilePicker.
  cbn [fst snd world project]. rewrite H.
  unfold bind at 1. unfold in_world at 1. cbn [fst snd world project generateUuid].
  unfold bind at 1, settled at 1.
  rewrite extension_rejected. reflexivity.
Qed.

(** C6 (the code departs from the claim).  The user selects the existing
    file [/tmp/photo.png] for the project made by [createProject]:
    [addTexture] is rejected by [sourcePath.extension()], returns no
    texture and copies nothing, so there is no asset for [getTexturePath]
    to resolve to.  [getTexturePath] itself only joins the project path,
    [assets] and the file name. *)
Theorem addTexture_copies_nothing :
  let after := ProjectManager.addTexture photo_session in
  picked photo_world = Some "/tmp/photo.png"
  /\ Tauri.exists_ (fs photo_world) "/tmp/photo.png" = true
  /\ after.1 = Err PathFailure
  /\ fs (world after.2) = fs photo_world
  /\ Tauri.entries (fs (world after.2)) ["Rack Designer"; "Projects"; "demo"]
     = [ {| Tauri.entry_name := "manifest.json"; Tauri.isDirectory := false |} ]
  /\ (forall (p : Project) (t : Texture.t),
        ProjectManager.getTexturePath p t
        = Io.join (path p)
            ["assets"; "texture_" +:+ Texture.id t +:+ Texture.extension t]).
Proof.
  cbv zeta. rewrite (addTexture_after_selection photo_session "/tmp/photo.png")
    by reflexivity.
  split_and!;
    [reflexivity | reflexivity | reflexivity | reflexivity
    | vm_compute; reflexivity | intros; reflexivity].
Qed.

(** C10 (the code departs from the claim).  Whatever file the user
    selects, [addTexture] is rejected before it reaches the code that
    appends the record: the texture list keeps its length, [modifiedAt]
    keeps its value, and the call is not a successful one. *)
Theorem addTexture_appends_nothing (s : Session) (sel : string) :
  picked (world s) = Some sel ->
  let after := ProjectManager.addTexture s in
  after.1 = Err PathFailure
  /\ project after.2 = project s
  /\ Manifest.textures (manifest (project after.2))
     = Manifest.textures (manifest (project s)).
Proof.
  intros H. cbv zeta. rewrite (addTexture_after_selection s sel H).
  split_and!; reflexivity.
Qed.

Lemma addTexture_appends_nothing_witness :
  picked (world photo_session) = Some "/tmp/photo.png"
  /\ (ProjectManager.addTexture photo_session).1 = Err PathFailure
  /\ project (ProjectManager.addTexture photo_session).2 = demo_project
  /\ Manifest.textures (manifest (project (ProjectManager.addTexture photo_session).2)) = [].
Proof.
  split; [reflexivity |].
  apply (addTexture_appends_nothing photo_session "/tmp/photo.png"). reflexivity.
Defined.

(** ** Removing a texture *)

Lemma findIndex_unknown (ts : list Texture.t) (textureId : string) (k : Z) :
  textureId ∉ map Texture.id ts ->
  ProjectManager.findIndex ts textureId k = (-1)%Z.
Proof.
  revert k. induction ts as [| t ts IH]; intros k Hnot; [reflexivity |].
  cbn [ProjectManager.findIndex]. rewrite fmap_cons in Hnot.
  apply not_elem_of_cons in Hnot as [Hne Hnot].
  destruct (decide (Texture.id t = textureId)); [congruence |].
  by apply IH.
Qed.

Lemma findIndex_first (ts : list Texture.t) (textureId : string) (i : nat)
    (t : Texture.t) (k : Z) :
  first_with_id ts textureId i t ->
  ProjectManager.findIndex ts textureId k = (k + Z.of_nat i)%Z.
Proof.
  revert i k. induction ts as [| t0 ts IH]; intros i k (Hi & Hid & Hbefore).
  - by rewrite lookup_nil in Hi.
  - cbn [ProjectManager.findIndex]. destruct i as [| i].
    + cbn in Hi. injection Hi as ->.
      destruct (decide (Texture.id t = textureId)); [lia | congruence].
    + destruct (decide (Texture.id t0 = textureId)) as [Heq | Hne].
      * exfalso. by apply (Hbefore 0%nat t0); [lia | |].
      * rewrite (IH i (k + 1)%Z); [lia |].
        split_and!; [exact Hi | exact Hid |].
        intros j t' Hj Hl. apply (Hbefore (S j) t'); [lia | exact Hl].
Qed.


(** The three ways through [removeTexture]. *)
Lemma removeTexture_unknown (p : Project) (w : World) (textureId : string) :
  ProjectManager.findIndex (Manifest.textures (manifest p)) textureId 0 = (-1)%Z ->
  ProjectManager.removeTexture textureId {| project := p; world := w |}
  = (Ok false, {| project := p; world := w |}).
Proof.
  intros H. unfold ProjectManager.removeTexture, bind, the_project, ret.
  cbn [project world]. rewrite H. reflexivity.
Qed.

Lemma removeTexture_found (p : Project) (w : World) (textureId : string)
    (i : nat) (t : Texture.t) :
  first_with_id (Manifest.textures (manifest p)) textureId i t ->
  ProjectManager.removeTexture textureId {| project := p; world := w |}
  = match Io.remove (ProjectManager.getTexturePath p t) false false w with
    | (Err _, w1) => (Ok false, {| project := p; world := w1 |})
    | (Ok _, w1) =>
        let p' := without_texture i (time w1) p in
        match ProjectManager.saveManifest p' (now w1).2 with
        | (Ok _, w2) => (Ok true, {| project := p'; world := w2 |})
        | (Err e, w2) => (Err e, {| project := p'; world := w2 |})
        end
    end.
Proof.
  intros Hfirst. pose proof (findIndex_first _ _ _ _ 0%Z Hfirst) as Hidx.
  destruct Hfirst as (Hi & _ & _).
  unfold ProjectManager.removeTexture.
  unfold bind at 1. unfold the_project at 1. cbn [project world].
  rewrite Hidx, Z.add_0_l.
  destruct (decide (Z.of_nat i = (-1)%Z)); [lia |].
  unfold JS.index. destruct (Z.ltb_spec (Z.of_nat i) 0); [lia |].
  rewrite Nat2Z.id, Hi.
  unfold bind at 1. unfold attempt, in_world. cbn [fst snd project world].
  destruct (Io.remove _ false false w) as [[[] | e] w1]; cbn [fst snd].
  - unfold bind, assign_manifest, in_world, the_project, ret, now.
    cbn [fst snd project world manifest time].
    unfold without_texture, now.
    destruct (ProjectManager.saveManifest _ _) as [[[] | e] w2]; reflexivity.
  - reflexivity.
Qed.

Lemma put_file_ok (f f' : Tauri.FS) (l : list string) (t : JSON.Text) :
  Tauri.put_file f l t = Ok f' ->
  f' = <[l := Tauri.File t]> f /\ l <> []
  /\ Tauri.node_at f (Tauri.parent l) = Some Tauri.Dir.
Proof.
  unfold Tauri.put_file. unfold Tauri.node_at at 1.
  destruct (decide (l = [])) as [-> | Hne]; [intros [=] |].
  destruct (f !! l) as [[| t0] |];
    destruct (Tauri.node_at f (Tauri.parent l)) as [[| t1] |];
    intros [=]; subst; done.
Qed.

Lemma node_at_put_file (f : Tauri.FS) (l : list string) (t : JSON.Text) :
  l <> [] -> Tauri.node_at (<[l := Tauri.File t]> f) l = Some (Tauri.File t).
Proof.
  intros Hne. unfold Tauri.node_at.
  destruct (decide (l = [])); [done |]. apply lookup_insert_eq.
Qed.

Lemma saveManifest_ok (p : Project) (w w' : World) :
  ProjectManager.saveManifest p w = (Ok tt, w') ->
  exists f', Tauri.put_file (fs w) (Tauri.locate (manifest_file (path p)))
               (JSON.stringify (JSON.OfManifest (manifest p))) = Ok f'
             /\ w' = set_fs f' w.
Proof.
  unfold ProjectManager.saveManifest, bind, Io.rawWriteTextFile, fs_call, ret.
  fold (manifest_file (path p)). unfold Tauri.writeTextFile.
  destruct (Tauri.put_file _ _ _) as [f' | e]; intros [=]; subst. by exists f'.
Qed.

Lemma saveManifest_persists (p : Project) (w w' : World) :
  ProjectManager.saveManifest p w = (Ok tt, w') ->
  Tauri.readTextFile (fs w') (manifest_file (path p))
  = Ok (JSON.stringify (JSON.OfManifest (manifest p))).
Proof.
  intros (f' & Hput & ->)%saveManifest_ok.
  apply put_file_ok in Hput as (-> & Hne & _).
  unfold Tauri.readTextFile. cbn [fs set_fs].
  by rewrite node_at_put_file.
Qed.



(** ** Path strings made of plain segments *)

Lemma split_no_sep (s : string) : no_sep s = true -> JS.split s = [s].
Proof.
  induction s as [| c r IH]; [reflexivity |].
  cbn [no_sep JS.split]. intros [Hc Hr]%andb_true_iff.
  apply negb_true_iff in Hc. rewrite Hc, (IH Hr). reflexivity.
Qed.

Lemma split_segment (p r : string) :
  no_sep p = true -> JS.split (p +:+ Tauri.sep +:+ r) = p :: JS.split r.
Proof.
  induction p as [| c p IH]; [reflexivity |].
  cbn [no_sep]. intros [Hc Hp]%andb_true_iff. apply negb_true_iff in Hc.
  change (String c p +:+ Tauri.sep +:+ r) with (String c (p +:+ Tauri.sep +:+ r)).
  cbn [JS.split]. rewrite Hc, (IH Hp). reflexivity.
Qed.

Lemma split_concat_with_sep (l : list string) :
  Forall plain l -> JS.split (Tauri.concat_with_sep l) = l ++ [""].
Proof.
  induction 1 as [| p l (_ & _ & _ & Hp) _ IH]; [reflexivity |].
  cbn [Tauri.concat_with_sep]. rewrite (split_segment _ _ Hp), IH. reflexivity.
Qed.

Lemma split_intercalate (l : list string) :
  Forall plain l -> l <> [] -> JS.split (Tauri.intercalate l) = l.
Proof.
  induction 1 as [| p l (_ & _ & _ & Hp) Hl IH]; [done |]. intros _.
  destruct l as [| q l].
  - by apply split_no_sep.
  - change (Tauri.intercalate (p :: q :: l))
      with (p +:+ Tauri.sep +:+ Tauri.intercalate (q :: l)).
    rewrite (split_segment _ _ Hp), IH; done.
Qed.

Lemma push_plain (acc : list string) (c : string) :
  plain c -> Tauri.push_component acc c = acc ++ [c].
Proof.
  intros (H0 & H1 & H2 & _). unfold Tauri.push_component.
  repeat (case_decide; [done |]). reflexivity.
Qed.

Lemma foldl_push_plain (l acc : list string) :
  Forall plain l -> foldl Tauri.push_component acc l = acc ++ l.
Proof.
  intros H. revert acc. induction H as [| c l Hc _ IH]; intros acc.
  - by rewrite app_nil_r.
  - cbn [foldl]. rewrite (push_plain _ _ Hc), IH, <- app_assoc. reflexivity.
Qed.

Lemma components_concat_with_sep (l : list string) :
  Forall plain l -> Tauri.components (Tauri.concat_with_sep l) = l.
Proof.
  intros H. unfold Tauri.components.
  rewrite (split_concat_with_sep _ H), foldl_app, (foldl_push_plain _ _ H).
  reflexivity.
Qed.

Lemma components_intercalate (l : list string) :
  Forall plain l -> Tauri.components (Tauri.intercalate l) = l.
Proof.
  intros H. destruct l as [| p l]; [reflexivity |].
  unfold Tauri.components. rewrite (split_intercalate _ H) by done.
  by rewrite (foldl_push_plain _ _ H).
Qed.

Lemma relative_concat_with_sep (l : list string) :
  Forall plain l -> Tauri.is_absolute (Tauri.concat_with_sep l) = false.
Proof.
  destruct 1 as [| p l (Hne & _ & _ & Hp) _]; [reflexivity |].
  destruct p as [| c p]; [done |].
  cbn [no_sep] in Hp. apply andb_true_iff in Hp as [Hc _].
  apply negb_true_iff in Hc. cbn. exact Hc.
Qed.

(** [join] of plain segments is the segments with separators between
    them, and splitting or locating that string gives the segments back. *)
Lemma join_plain (l : list string) :
  Forall plain l -> Tauri.join l = Tauri.intercalate l.
Proof.
  intros H. unfold Tauri.join. cbv zeta.
  rewrite (relative_concat_with_sep _ H), (components_concat_with_sep _ H).
  reflexivity.
Qed.

Lemma locate_join_plain (l : list string) :
  Forall plain l -> Tauri.locate (Tauri.join l) = l.
Proof.
  intros H. unfold Tauri.locate. rewrite (join_plain _ H).
  by apply components_intercalate.
Qed.

Lemma Io_join_plain (l segs : list string) (base : Parts) :
  Forall plain (l ++ segs) -> l ++ segs <> [] ->
  Io.join {| basePathParts := base; pathParts := Arr l |} segs
  = {| basePathParts := Arr []; pathParts := Arr (l ++ segs) |}.
Proof.
  intros H Hne. unfold Io.join, Io.new_Path. cbn [pathParts Io.spread].
  rewrite (join_plain _ H), (split_intercalate _ H Hne). reflexivity.
Qed.

Lemma locate_absolute_plain (l : list string) :
  Forall plain l ->
  Tauri.locate (Io.absolute {| basePathParts := Arr []; pathParts := Arr l |}) = l.
Proof.
  intros H. unfold Io.absolute. cbn [basePathParts pathParts Io.spread app].
  by apply locate_join_plain.
Qed.

(** What [sanitize] returns is made of word characters only. *)
Lemma word_char_replaced (c : ascii) :
  JS.is_word_char (if JS.is_word_char c then c else "_"%char) = true.
Proof. destruct (JS.is_word_char c) eqn:H; [exact H | reflexivity]. Qed.

Lemma sanitize_no_sep (s : string) : no_sep (ProjectManager.sanitize s) = true.
Proof.
  unfold ProjectManager.sanitize. induction s as [| c s IH]; [reflexivity |].
  cbn [JS.replace_non_word no_sep]. rewrite IH, andb_true_r.
  apply negb_true_iff, Ascii.eqb_neq. intros Heq.
  pose proof (word_char_replaced c) as Hw. rewrite Heq in Hw. discriminate.
Qed.

Lemma sanitize_no_dot (s : string) (r : string) :
  ProjectManager.sanitize s <> String "."%char r.
Proof.
  unfold ProjectManager.sanitize. destruct s as [| c s]; [discriminate |].
  cbn [JS.replace_non_word]. intros [= Heq _].
  pose proof (word_char_replaced c) as Hw. rewrite Heq in Hw. discriminate.
Qed.

Lemma sanitize_plain (s : string) :
  ProjectManager.sanitize s <> "" -> plain (ProjectManager.sanitize s).
Proof.
  intros H. split_and!; [exact H | apply sanitize_no_dot | apply sanitize_no_dot |].
  apply sanitize_no_sep.
Qed.

(** ** The file tree under [mkdir] and [create] *)

Lemma adds_dirs_adds n f f' : adds_dirs n f f' -> adds n f f'.
Proof. intros H k. destruct (H k) as [? | (? & _ & ?)]; auto. Qed.

Lemma adds_refl n f : adds n f f.
Proof. intros k. by left. Qed.



Lemma adds_keeps n f f' k x : adds n f f' -> f !! k = Some x -> f' !! k = Some x.
Proof. intros H Hk. destruct (H k) as [-> | [Hnone _]]; congruence. Qed.


Lemma mkdir_all_adds (todo above : list string) (f f' : Tauri.FS) :
  Tauri.mkdir_all f above todo = Some f' ->
  adds_dirs (length (above ++ todo)) f f'.
Proof.
  revert above f. induction todo as [| c r IH]; intros above f.
  - intros [= <-] k. by left.
  - cbn [Tauri.mkdir_all].
    replace (above ++ c :: r) with ((above ++ [c]) ++ r) by (by rewrite <- app_assoc).
    destruct (f !! (above ++ [c])) as [[| t] |] eqn:Hl; [apply IH | done |].
    intros Hrec k. destruct (IH _ _ Hrec k) as [Heq | (Hnone & Hdir & Hlen)].
    + destruct (decide (k = above ++ [c])) as [-> | Hne].
      * right. rewrite Heq, lookup_insert_eq. split_and!; [done | done |].
        rewrite !length_app. lia.
      * left. by rewrite Heq, lookup_insert_ne.
    + right. split_and!; [| done | done].
      destruct (decide (k = above ++ [c])) as [-> | Hne].
      * by rewrite lookup_insert_eq in Hnone.
      * by rewrite lookup_insert_ne in Hnone.
Qed.


(** The un-awaited calls of [createProject] change the file tree only. *)
Lemma set_fs_same (w : World) : set_fs (fs w) w = w.
Proof. by destruct w. Qed.

Lemma Io_mkdir_world (p : Path) (existOk recursive : bool) (w : World) :
  (Io.mkdir p existOk recursive w).2 = set_fs (fs (Io.mkdir p existOk recursive w).2) w.
Proof.
  unfold Io.mkdir, bind, Io.exists_, reject, fs_call.
  destruct (_ && _); cbn [snd]; [by rewrite set_fs_same |].
  destruct (Tauri.mkdir _ _ _); cbn [snd fs set_fs]; [done | by rewrite set_fs_same].
Qed.

Lemma Io_touch_world (p : Path) (existOk : bool) (w : World) :
  (Io.touch p existOk w).2 = set_fs (fs (Io.touch p existOk w).2) w.
Proof.
  unfold Io.touch, bind, Io.exists_, reject, fs_call.
  destruct (_ && _); cbn [snd]; [by rewrite set_fs_same |].
  destruct (Tauri.create _ _); cbn [snd fs set_fs]; [done | by rewrite set_fs_same].
Qed.

Lemma Io_mkdir_adds (p : Path) (existOk : bool) (w : World) :
  adds_dirs (length (Tauri.locate (Io.absolute p)))
    (fs w) (fs (Io.mkdir p existOk true w).2).
Proof.
  unfold Io.mkdir, bind, Io.exists_, reject, fs_call.
  destruct (_ && _); cbn [snd]; [by left |].
  unfold Tauri.mkdir.
  destruct (Tauri.mkdir_all _ _ _) as [f' |] eqn:Hrun; cbn [snd fs set_fs]; [| by left].
  by apply mkdir_all_adds in Hrun.
Qed.

Lemma Io_touch_adds (p : Path) (w : World) :
  adds (length (Tauri.locate (Io.absolute p)))
    (fs w) (fs (Io.touch p false w).2).
Proof.
  unfold Io.touch, bind, Io.exists_, reject, fs_call.
  destruct (Tauri.exists_ (fs w) (Io.absolute p)) eqn:Hex; cbn [andb negb snd];
    [apply adds_refl |].
  unfold Tauri.create.
  destruct (Tauri.put_file _ _ _) as [f' |] eqn:Hput; cbn [snd fs set_fs];
    [| apply adds_refl].
  apply put_file_ok in Hput as (-> & Hne & _).
  unfold Tauri.exists_, Tauri.node_at in Hex.
  destruct (decide (Tauri.locate (Io.absolute p) = [])); [done |].
  intros k. destruct (decide (k = Tauri.locate (Io.absolute p))) as [-> | Hk].
  - right. split; [| lia]. by destruct (fs w !! Tauri.locate (Io.absolute p)).
  - left. by rewrite lookup_insert_ne.
Qed.

Lemma put_file_succeeds (f : Tauri.FS) (l : list string) (t : JSON.Text) :
  l <> [] -> f !! l <> Some Tauri.Dir ->
  Tauri.node_at f (Tauri.parent l) = Some Tauri.Dir ->
  Tauri.put_file f l t = Ok (<[l := Tauri.File t]> f).
Proof.
  intros Hne Hl Hparent. unfold Tauri.put_file. rewrite Hparent.
  unfold Tauri.node_at. destruct (decide (l = [])); [done |].
  by destruct (f !! l) as [[| t0] |].
Qed.


(** ** Creating a project *)

Lemma same_but_fs_trans (a b c : World) :
  same_but_fs a b -> same_but_fs b c -> same_but_fs a c.
Proof.
  unfold same_but_fs. intros Hab Hbc. rewrite Hbc at 1. rewrite Hab. reflexivity.
Qed.

Lemma prepared_world (name : string) (w : World) :
  same_but_fs (generateUuid w).2 (prepared name w).
Proof.
  unfold prepared. cbv zeta.
  do 3 (eapply same_but_fs_trans;
        [| first [apply Io_touch_world | apply Io_mkdir_world]]).
  apply Io_mkdir_world.
Qed.

Lemma createProject_unfold (name : string) (w : World) :
  ProjectManager.createProject name w
  = match ProjectManager.saveManifest (first_project name w)
            (now (now (prepared name w)).2).2 with
    | (Ok _, w') => (Ok (first_project name w), w')
    | (Err e, w') => (Err e, w')
    end.
Proof.
  unfold ProjectManager.createProject.
  unfold bind at 1. cbn [generateUuid].
  rewrite !bind_spawn.
  change (Io.touch _ false _).2 with (prepared name w).
  rewrite (prepared_world name w).
  unfold bind, now, ret. cbn [fs time ticks set_fs generateUuid snd hd tl].
  unfold first_project, first_manifest.
  destruct (ProjectManager.saveManifest _ _) as [[[] | e] w']; reflexivity.
Qed.

Lemma plain_literals :
  plain "Rack Designer" /\ plain "Projects" /\ plain "assets" /\ plain "manifest.json".
Proof. split_and!; (split_and!; [discriminate | discriminate | discriminate | reflexivity]). Qed.

Ltac plain_segments :=
  cbn [app]; repeat (apply Forall_cons_2; [assumption |]); apply Forall_nil_2.





(** ** Identifiers of textures are unique *)

Lemma first_with_id_exists (ts : list Texture.t) (textureId : string) :
  textureId ∈ map Texture.id ts -> exists i t, first_with_id ts textureId i t.
Proof.
  induction ts as [| t0 ts IH]; [by intros ?%elem_of_nil |].
  intros Hin. destruct (decide (Texture.id t0 = textureId)) as [Heq | Hne].
  - exists 0%nat, t0. split_and!; [done | done |]. intros j t' Hj. lia.
  - rewrite fmap_cons in Hin. apply elem_of_cons in Hin as [Heq | Hin]; [congruence |].
    destruct (IH Hin) as (i & t & Hi & Hid & Hbefore).
    exists (S i), t. split_and!; [done | done |].
    intros [| j] t' Hj Ht'.
    + cbn in Ht'. by injection Ht' as <-.
    + apply (Hbefore j t'); [lia | done].
Qed.

(** What the operations leave in the texture list. *)
Lemma createProject_textures (name : string) (w w' : World) (p : Project) :
  ProjectManager.createProject name w = (Ok p, w') ->
  Manifest.textures (manifest p) = [].
Proof.
  rewrite createProject_unfold.
  destruct (ProjectManager.saveManifest _ _) as [[[] | e] w'']; intros [= <- _]; done.
Qed.

Lemma addTexture_project (s : Session) :
  project (ProjectManager.addTexture s).2 = project s.
Proof.
  destruct (picked (world s)) as [sel |] eqn:Hpick.
  - by rewrite (addTexture_after_selection s sel Hpick).
  - destruct s as [p w]. cbn [world] in Hpick.
    unfold ProjectManager.addTexture, bind, in_world, openFilePicker.
    cbn [fst snd world project]. rewrite Hpick. reflexivity.
Qed.

Lemma removeTexture_textures (textureId : string) (s : Session) :
  let ts := Manifest.textures (manifest (project s)) in
  let ts' := Manifest.textures (manifest (project (ProjectManager.removeTexture textureId s).2)) in
  ts' = ts \/ exists i, ts' = delete i ts.
Proof.
  destruct s as [p w]. cbn [project]. cbv zeta.
  destruct (decide (textureId ∈ map Texture.id (Manifest.textures (manifest p))))
    as [Hin | Hnot].
  - destruct (first_with_id_exists _ _ Hin) as (i & t & Hfirst).
    rewrite (removeTexture_found p w textureId i t Hfirst).
    destruct (Io.remove _ false false w) as [[[] | e] w1]; [| by left].
    cbv zeta. destruct (ProjectManager.saveManifest _ _) as [[[] | e] w2];
      right; by exists i.
  - rewrite removeTexture_unknown by (by apply findIndex_unknown). by left.
Qed.

(** The list that [addTexture] builds when it appends a record with an
    unused identifier has unique identifiers as well. *)
Lemma appended_unique (ts : list Texture.t) (t : Texture.t) :
  NoDup (map Texture.id ts) -> Texture.id t ∉ map Texture.id ts ->
  NoDup (map Texture.id (ts ++ [t])).
Proof.
  intros Hts Hfresh. rewrite fmap_app. apply NoDup_app. split_and!; [done | |].
  - intros x Hx ->%list_elem_of_singleton. done.
  - apply NoDup_singleton.
Qed.

(** C9.  Uniqueness of texture identifiers is an invariant: if the
    identifiers in the texture list of a project are pairwise distinct,
    they still are in the project that [createProject], [addTexture] (the
    generated identifier being unused) or [removeTexture] leaves. *)
Theorem unique_ids_invariant (w : World) (p p' : Project) :
  unique_ids p -> operation w p p' -> unique_ids p'.
Proof.
  unfold unique_ids, texture_ids. intros Hp Hop.
  destruct Hop as [name p' w' Hcreate | r s' Hfresh Hadd | textureId r s' Hrm].
  - rewrite (createProject_textures _ _ _ _ Hcreate). apply NoDup_nil_2.
  - pose proof (addTexture_project {| project := p; world := w |}) as Hsame.
    rewrite Hadd in Hsame. cbn [snd project] in Hsame. by rewrite Hsame.
  - pose proof (removeTexture_textures textureId {| project := p; world := w |}) as Hts.
    cbv zeta in Hts. rewrite Hrm in Hts. cbn [snd project] in Hts.
    destruct Hts as [-> | [i ->]]; [done |].
    rewrite list_fmap_delete. eapply sublist_NoDup; [exact Hp |]. apply sublist_delete.
Qed.

Lemma unique_ids_invariant_witness :
  unique_ids gallery_project
  /\ operation gallery_world gallery_project
       (project (ProjectManager.removeTexture "a" gallery).2)
  /\ texture_ids (project (ProjectManager.removeTexture "a" gallery).2) = ["b"]
  /\ unique_ids (project (ProjectManager.removeTexture "a" gallery).2).
Proof.
  assert (Hu : unique_ids gallery_project).
  { unfold unique_ids. cbn. apply NoDup_cons. split.
    - intros Hin%list_elem_of_singleton. discriminate.
    - apply NoDup_singleton. }
  assert (Hop : operation gallery_world gallery_project
                  (project (ProjectManager.removeTexture "a" gallery).2)).
  { apply (op_removeTexture _ _ "a" (ProjectManager.removeTexture "a" gallery).1).
    unfold gallery. by destruct (ProjectManager.removeTexture _ _). }
  split_and!; [exact Hu | exact Hop | vm_compute; reflexivity |].
  exact (unique_ids_invariant gallery_world gallery_project _ Hu Hop).
Defined.


(** * Further properties *)

(** ** [sanitize] *)

Lemma sanitize_word_only (s : string) : word_only (ProjectManager.sanitize s) = true.
Proof.
  unfold ProjectManager.sanitize. induction s as [| c s IH]; [done |].
  cbn [JS.replace_non_word word_only]. by rewrite IH, word_char_replaced.
Qed.

(** X1.  [sanitize] keeps the length of the name and returns only
    letters, digits, [-] and [_]. *)
Theorem sanitize_shape (s : string) :
  String.length (ProjectManager.sanitize s) = String.length s
  /\ word_only (ProjectManager.sanitize s) = true.
Proof.
  split; [| apply sanitize_word_only].
  unfold ProjectManager.sanitize. induction s as [| c s IH]; [done |].
  cbn [JS.replace_non_word String.length]. by rewrite IH.
Qed.

(** X2.  The names that [sanitize] leaves as they are are exactly those
    made of letters, digits, [-] and [_]; sanitizing twice is sanitizing
    once. *)
Theorem sanitize_fixpoints (s : string) :
  (ProjectManager.sanitize s = s <-> word_only s = true)
  /\ ProjectManager.sanitize (ProjectManager.sanitize s) = ProjectManager.sanitize s.
Proof.
  assert (Hfix : forall r, ProjectManager.sanitize r = r <-> word_only r = true).
  { unfold ProjectManager.sanitize. induction r as [| c r IH]; [done |].
    cbn [JS.replace_non_word word_only]. split.
    - intros [= Hc Hr]. apply IH in Hr. rewrite Hr, andb_true_r.
      destruct (JS.is_word_char c) eqn:Hw; [done |].
      subst c. discriminate.
    - intros [Hc Hr]%andb_true_iff. rewrite Hc. f_equal. by apply IH. }
  split; [apply Hfix |]. apply Hfix. apply sanitize_word_only.
Qed.

(** ** Path strings in general *)

Lemma str_app_nil_r (s : string) : s +:+ "" = s.
Proof.
  induction s as [| c s IH]; [done |].
  change (String c s +:+ "") with (String c (s +:+ "")). by rewrite IH.
Qed.

Lemma str_app_assoc (a b c : string) : (a +:+ b) +:+ c = a +:+ b +:+ c.
Proof.
  induction a as [| x a IH]; [done |].
  change ((String x a +:+ b) +:+ c) with (String x ((a +:+ b) +:+ c)).
  by rewrite IH.
Qed.

Lemma split_nonempty (s : string) : JS.split s <> [].
Proof.
  induction s as [| c s IH]; [done |]. cbn [JS.split].
  destruct (Ascii.eqb c "/"); [done |]. by destruct (JS.split s).
Qed.

Lemma split_app_sep (s1 s2 : string) :
  JS.split (s1 +:+ Tauri.sep +:+ s2) = JS.split s1 ++ JS.split s2.
Proof.
  induction s1 as [| c s1 IH]; [reflexivity |].
  change (String c s1 +:+ Tauri.sep +:+ s2) with (String c (s1 +:+ Tauri.sep +:+ s2)).
  cbn [JS.split]. rewrite IH.
  destruct (Ascii.eqb c "/"); [reflexivity |].
  pose proof (split_nonempty s1) as Hne.
  by destruct (JS.split s1).
Qed.

Lemma split_all_no_sep (s : string) : Forall (fun c => no_sep c = true) (JS.split s).
Proof.
  induction s as [| c s IH]; [by repeat constructor |]. cbn [JS.split].
  destruct (Ascii.eqb c "/") eqn:Hc; [by constructor |].
  destruct (JS.split s) as [| h t]; [by repeat (constructor; cbn; rewrite ?Hc) |].
  apply Forall_cons_1 in IH as [Hh Ht].
  constructor; [| done]. cbn. by rewrite Hc, Hh.
Qed.

Lemma push_keeps_plain (acc : list string) (c : string) :
  Forall plain acc -> no_sep c = true -> Forall plain (Tauri.push_component acc c).
Proof.
  intros Hacc Hc. unfold Tauri.push_component.
  repeat case_decide; [done | done | |].
  - destruct acc as [| a acc _] using rev_ind; [done |].
    rewrite removelast_last. by apply Forall_app in Hacc as [? _].
  - apply Forall_app. split; [done |]. by repeat constructor.
Qed.

Lemma foldl_push_keeps_plain (l acc : list string) :
  Forall plain acc -> Forall (fun c => no_sep c = true) l ->
  Forall plain (foldl Tauri.push_component acc l).
Proof.
  revert acc. induction l as [| c l IH]; intros acc Hacc Hl; [done |].
  apply Forall_cons_1 in Hl as [Hc Hl]. cbn [foldl].
  apply IH; [by apply push_keeps_plain | done].
Qed.

(** The components of any string are plain segments. *)
Lemma components_plain (s : string) : Forall plain (Tauri.components s).
Proof.
  unfold Tauri.components. apply foldl_push_keeps_plain; [done |].
  apply split_all_no_sep.
Qed.

Lemma concat_with_sep_app (X Y : list string) :
  Tauri.concat_with_sep (X ++ Y) = Tauri.concat_with_sep X +:+ Tauri.concat_with_sep Y.
Proof.
  induction X as [| x X IH]; [done |].
  cbn [app Tauri.concat_with_sep]. by rewrite IH, !str_app_assoc.
Qed.

Lemma concat_with_sep_ends (X : list string) :
  X <> [] -> exists Z, Tauri.concat_with_sep X = Z +:+ Tauri.sep.
Proof.
  induction X as [| x X IH]; [done |]. intros _.
  destruct X as [| y X].
  - exists x. reflexivity.
  - destruct IH as [Z HZ]; [done |]. exists (x +:+ Tauri.sep +:+ Z).
    change (Tauri.concat_with_sep (x :: y :: X))
      with (x +:+ Tauri.sep +:+ Tauri.concat_with_sep (y :: X)).
    by rewrite HZ, !str_app_assoc.
Qed.

Lemma foldl_push_empty (acc : list string) :
  foldl Tauri.push_component acc [""] = acc.
Proof. reflexivity. Qed.

(** After the segments [X], the text [B] continues the components. *)
Lemma components_concat_app (X : list string) (B : string) :
  Tauri.components (Tauri.concat_with_sep X +:+ B)
  = foldl Tauri.push_component (Tauri.components (Tauri.concat_with_sep X)) (JS.split B).
Proof.
  destruct X as [| x X]; [reflexivity |].
  destruct (concat_with_sep_ends (x :: X)) as [Z HZ]; [done |].
  rewrite HZ. unfold Tauri.components.
  rewrite str_app_assoc, split_app_sep, foldl_app.
  replace (Z +:+ Tauri.sep) with (Z +:+ Tauri.sep +:+ "") by (by rewrite str_app_nil_r).
  rewrite split_app_sep, foldl_app. reflexivity.
Qed.

Lemma components_concat_plain (X Y : list string) :
  Forall plain Y ->
  Tauri.components (Tauri.concat_with_sep (X ++ Y))
  = Tauri.components (Tauri.concat_with_sep X) ++ Y.
Proof.
  intros HY. rewrite concat_with_sep_app, components_concat_app.
  rewrite (split_concat_with_sep _ HY), foldl_app, (foldl_push_plain _ _ HY).
  reflexivity.
Qed.

Lemma locate_render (abs : bool) (cs : list string) :
  Forall plain cs -> Tauri.locate (Tauri.render abs cs) = cs.
Proof.
  intros H. unfold Tauri.locate, Tauri.render. destruct abs.
  - change (Tauri.sep +:+ Tauri.intercalate cs) with ("" +:+ Tauri.sep +:+ Tauri.intercalate cs).
    unfold Tauri.components. rewrite split_app_sep, foldl_app.
    by apply components_intercalate.
  - by apply components_intercalate.
Qed.

(** Where [join] points: the components of its arguments put together. *)
Lemma locate_join (l : list string) :
  Tauri.locate (Tauri.join l) = Tauri.components (Tauri.concat_with_sep l).
Proof. unfold Tauri.join. cbv zeta. apply locate_render, components_plain. Qed.

Lemma locate_join_split_render (abs : bool) (cs : list string) :
  Forall plain cs ->
  Tauri.locate (Tauri.join (JS.split (Tauri.render abs cs))) = cs.
Proof.
  intros H. rewrite locate_join. destruct cs as [| c cs].
  - by destruct abs.
  - unfold Tauri.render. destruct abs.
    + change (Tauri.sep +:+ Tauri.intercalate (c :: cs))
        with ("" +:+ Tauri.sep +:+ Tauri.intercalate (c :: cs)).
      rewrite split_app_sep, (split_intercalate _ H) by done.
      change (JS.split "" ++ c :: cs) with ([""] ++ c :: cs).
      rewrite concat_with_sep_app, components_concat_app.
      rewrite (split_concat_with_sep _ H), foldl_app, (foldl_push_plain _ _ H).
      reflexivity.
    + change ("" +:+ Tauri.intercalate (c :: cs)) with (Tauri.intercalate (c :: cs)).
      rewrite (split_intercalate _ H) by done.
      by apply components_concat_with_sep.
Qed.

(** Where the Path that [join] returns points, whatever the receiver and
    the segments. *)
Lemma locate_absolute_join (p : Path) (segs : list string) :
  Tauri.locate (Io.absolute (Io.join p segs))
  = Tauri.components (Tauri.concat_with_sep (Io.spread (pathParts p) ++ segs)).
Proof.
  unfold Io.join, Io.absolute, Io.new_Path. cbn [basePathParts pathParts Io.spread app].
  unfold Tauri.join at 2. cbv zeta.
  apply locate_join_split_render, components_plain.
Qed.

(** ** A [Path] made from a string *)

Lemma char_components_fold (s : string) (acc : list string) :
  foldl Tauri.push_component acc (JS.split (Tauri.concat_with_sep (JS.chars s)))
  = acc ++ char_components s.
Proof.
  revert acc. induction s as [| c s IH]; intros acc; [by rewrite app_nil_r |].
  cbn [JS.chars Tauri.concat_with_sep]. unfold char_components. cbn [JS.chars].
  change (String c "" +:+ Tauri.sep +:+ Tauri.concat_with_sep (JS.chars s))
    with (String c "" +:+ Tauri.sep +:+ Tauri.concat_with_sep (JS.chars s)).
  rewrite split_app_sep, foldl_app.
  destruct (Ascii.eqb_spec c "/") as [-> | Hsep].
  - change (foldl Tauri.push_component acc (JS.split "/")) with acc.
    rewrite IH. rewrite filter_cons_False; [done |].
    intros [Hne _]. by apply Hne.
  - replace (JS.split (String c "")) with [String c ""]
      by (cbn [JS.split]; by destruct (Ascii.eqb_spec c "/")).
    cbn [foldl]. destruct (Ascii.eqb_spec c ".") as [-> | Hdot].
    + change (Tauri.push_component acc ".") with acc.
      rewrite IH. rewrite filter_cons_False; [done |].
      intros [_ Hne]. by apply Hne.
    + assert (Hpush : Tauri.push_component acc (String c "") = acc ++ [String c ""]).
      { unfold Tauri.push_component.
        repeat (case_decide; [congruence |]). reflexivity. }
      rewrite Hpush, IH, <- app_assoc.
      rewrite filter_cons_True; [done |].
      split; intros [=]; congruence.
Qed.

Lemma char_components_single (s : string) :
  Forall (fun c => String.length c = 1%nat) (char_components s).
Proof.
  unfold char_components. apply Forall_forall.
  intros c [_ Hc]%list_elem_of_filter. revert Hc.
  induction s as [| x s IH]; cbn [JS.chars]; [by intros ?%elem_of_nil |].
  intros [-> | Hc]%elem_of_cons; [done | by apply IH].
Qed.

(** X3.  A [Path] constructed from a primitive string, as the manager
    does with what the dialog returns, does not name the folder of that
    string: [absolute()] spreads the string into its characters, so the
    location it names has one component per character, separators and
    dots left out. *)
Theorem primitive_path_location (sel : string) :
  Tauri.locate (Io.absolute (Io.new_Path (Io.OfPrimitive sel) None))
  = char_components sel
  /\ Forall (fun c => String.length c = 1%nat) (char_components sel).
Proof.
  split; [| apply char_components_single].
  unfold Io.absolute, Io.new_Path. cbn [basePathParts pathParts Io.spread app].
  rewrite locate_join. unfold Tauri.components.
  apply (char_components_fold sel []).
Qed.

Lemma primitive_manifest_location (sel : string) :
  Tauri.locate (manifest_file (Io.new_Path (Io.OfPrimitive sel) None))
  = char_components sel ++ ["manifest.json"].
Proof.
  unfold manifest_file. rewrite locate_absolute_join.
  cbn [Io.new_Path pathParts Io.spread].
  rewrite components_concat_plain
    by (apply Forall_cons_2; [apply plain_literals | apply Forall_nil_2]).
  unfold Tauri.components. by rewrite (char_components_fold sel []).
Qed.

(** X4.  [importProject] looks for [manifest.json] below that
    character-wise location.  When nothing is there it is rejected as an
    invalid project folder and leaves the world as it was, whatever the
    selected folder itself contains. *)
Theorem importProject_looks_elsewhere (w : World) (sel : string) :
  picked w = Some sel ->
  Tauri.node_at (fs w) (char_components sel ++ ["manifest.json"]) = None ->
  ProjectManager.importProject w = (Err (Msg MSG_IMPORT_NO_MANIFEST), w)
  /\ kind_of (Msg MSG_IMPORT_NO_MANIFEST) = InvalidProject.
Proof.
  intros Hpick Hnone. split; [| reflexivity].
  unfold ProjectManager.importProject.
  unfold bind at 1. unfold openFilePicker. rewrite Hpick.
  unfold bind, Io.exists_, Tauri.exists_.
  fold (manifest_file (Io.new_Path (Io.OfPrimitive sel) None)).
  rewrite primitive_manifest_location, Hnone. reflexivity.
Qed.

Lemma importProject_looks_elsewhere_witness :
  picked picked_project_world = Some "/tmp/proj"
  /\ Tauri.readTextFile (fs picked_project_world) "/tmp/proj/manifest.json"
     = Ok (JSON.stringify (JSON.OfManifest (manifest demo_project)))
  /\ ProjectManager.importProject picked_project_world
     = (Err (Msg MSG_IMPORT_NO_MANIFEST), picked_project_world)
  /\ kind_of (Msg MSG_IMPORT_NO_MANIFEST) = InvalidProject.
Proof.
  split; [reflexivity |]. split; [reflexivity |].
  apply (importProject_looks_elsewhere picked_project_world "/tmp/proj");
    reflexivity.
Defined.

(** ** [join] *)

(** X5.  Joining in two steps is joining at once, for segments that are
    plain names. *)
Theorem join_composes (base : Parts) (l a b : list string) :
  Forall plain (l ++ a ++ b) -> l ++ a <> [] ->
  Io.join (Io.join {| basePathParts := base; pathParts := Arr l |} a) b
  = Io.join {| basePathParts := base; pathParts := Arr l |} (a ++ b).
Proof.
  intros Hplain Hne.
  assert (Hla : Forall plain (l ++ a)).
  { rewrite app_assoc in Hplain. by apply Forall_app in Hplain as [? _]. }
  rewrite (Io_join_plain l a base Hla Hne).
  rewrite (Io_join_plain (l ++ a) b (Arr [])).
  - rewrite (Io_join_plain l (a ++ b) base); [by rewrite app_assoc | done |].
    intros Heq. apply Hne. destruct l; [by destruct a |]. done.
  - by rewrite <- app_assoc.
  - intros Heq. by apply app_eq_nil in Heq as [? _].
Qed.

Lemma join_composes_witness :
  Io.join (Io.join ProjectManager.getProjectsFolder ["demo"]) ["assets"; "texture_a.png"]
  = Io.join ProjectManager.getProjectsFolder ["demo"; "assets"; "texture_a.png"].
Proof.
  apply (join_composes (Arr []) ["Rack Designer"; "Projects"] ["demo"]
           ["assets"; "texture_a.png"]); [| done].
  cbn [app]. repeat (apply Forall_cons_2;
    [split_and!; [discriminate | discriminate | discriminate | reflexivity] |]).
  apply Forall_nil_2.
Defined.

(** X6.  [join] forgets the base directory of its receiver: for a [Path]
    with base [bs] and segments [l], [absolute()] names [bs ++ l], but
    the path that [join] returns names [l ++ segs], outside the base. *)
Theorem join_forgets_base (bs l segs : list string) :
  Forall plain bs -> Forall plain l -> Forall plain segs ->
  let p := Io.new_Path (Io.OfArray l)
             (Some (Io.BasePath (Io.new_Path (Io.OfArray bs) None))) in
  Tauri.locate (Io.absolute p) = bs ++ l
  /\ Tauri.locate (Io.absolute (Io.join p segs)) = l ++ segs
  /\ basePathParts (Io.join p segs) = Arr [].
Proof.
  intros Hbs Hl Hsegs p. split_and!.
  - unfold Io.absolute, p, Io.new_Path. cbn [basePathParts pathParts Io.spread].
    apply locate_join_plain. by apply Forall_app.
  - rewrite locate_absolute_join. unfold p, Io.new_Path.
    cbn [basePathParts pathParts Io.spread].
    apply components_concat_with_sep. by apply Forall_app.
  - reflexivity.
Qed.

Lemma join_forgets_base_witness :
  let p := Io.new_Path (Io.OfArray ["demo"])
             (Some (Io.BasePath ProjectManager.getProjectsFolder)) in
  Tauri.locate (Io.absolute p) = ["Rack Designer"; "Projects"; "demo"]
  /\ Tauri.locate (Io.absolute (Io.join p ["assets"])) = ["demo"; "assets"]
  /\ basePathParts (Io.join p ["assets"]) = Arr [].
Proof.
  apply (join_forgets_base ["Rack Designer"; "Projects"] ["demo"] ["assets"]);
    repeat (apply Forall_cons_2;
      [split_and!; [discriminate | discriminate | discriminate | reflexivity] |]);
    apply Forall_nil_2.
Defined.

(** ** [isDir] and [isFile] *)

(** X7.  [isFile()] answers [false] for every path in every world, for
    an existing file as for a missing path, and is never rejected: it
    negates the promise of [isDir], not its result.  For a file both
    [isDir()] and [isFile()] are [false]. *)
Theorem isFile_never_true (p : Path) (w : World) :
  Io.isFile p w = (Ok false, w)
  /\ (forall t, Tauri.node_at (fs w) (Tauri.locate (Io.relativePath p)) = Some (Tauri.File t) ->
      Io.isDir p w = (Ok false, w))
  /\ (Tauri.node_at (fs w) (Tauri.locate (Io.relativePath p)) = None ->
      Io.isDir p w = (Err FsFailure, w)).
Proof.
  split_and!.
  - unfold Io.isFile. rewrite bind_spawn.
    unfold Io.isDir, bind, fs_read, ret.
    by destruct (Tauri.lstat (fs w) (Io.relativePath p)).
  - intros t Ht. unfold Io.isDir, bind, fs_read, ret, Tauri.lstat. by rewrite Ht.
  - intros Hnone. unfold Io.isDir, bind, fs_read, ret, Tauri.lstat. by rewrite Hnone.
Qed.

Lemma isFile_never_true_witness :
  let asset := ProjectManager.getTexturePath gallery_project texture_a in
  Io.isFile asset gallery_world = (Ok false, gallery_world)
  /\ Io.isDir asset gallery_world = (Ok false, gallery_world).
Proof.
  intros asset.
  destruct (isFile_never_true asset gallery_world) as (Hfile & Hdir & _).
  split; [exact Hfile |].
  apply (Hdir (JSON.Plain "PNG")). vm_compute; reflexivity.
Defined.

(** ** [touch], [mkdir] and [remove] *)

(** X8.  [touch] with [existOk] (the default) on an existing file does
    not leave it alone: the file is created anew and its content is
    lost. *)
Theorem touch_truncates (p : Path) (w : World) (t : JSON.Text) :
  Tauri.node_at (fs w) (Tauri.locate (Io.absolute p)) = Some (Tauri.File t) ->
  Tauri.node_at (fs w) (Tauri.parent (Tauri.locate (Io.absolute p))) = Some Tauri.Dir ->
  exists w',
    Io.touch p true w = (Ok tt, w')
    /\ Tauri.readTextFile (fs w') (Io.absolute p) = Ok (JSON.Plain "")
    /\ same_but_fs w w'.
Proof.
  intros Hfile Hparent.
  assert (Hne : Tauri.locate (Io.absolute p) <> []).
  { intros Heq. rewrite Heq in Hfile. discriminate. }
  assert (Hl : fs w !! Tauri.locate (Io.absolute p) = Some (Tauri.File t)).
  { unfold Tauri.node_at in Hfile. by destruct (decide (_ = [])). }
  eexists. unfold Io.touch, bind, Io.exists_, fs_call, Tauri.create.
  rewrite andb_false_r.
  rewrite (put_file_succeeds _ _ _ Hne) by (by rewrite ?Hl).
  split_and!; [reflexivity | | reflexivity].
  unfold Tauri.readTextFile. cbn [fs set_fs]. by rewrite node_at_put_file.
Qed.

Lemma touch_truncates_witness :
  let file := Io.join (path demo_project) ["manifest.json"] in
  Tauri.readTextFile (fs demo_world) (Io.absolute file)
  = Ok (JSON.stringify (JSON.OfManifest (manifest demo_project)))
  /\ exists w',
    Io.touch file true demo_world = (Ok tt, w')
    /\ Tauri.readTextFile (fs w') (Io.absolute file) = Ok (JSON.Plain "")
    /\ same_but_fs demo_world w'.
Proof.
  intros file. split; [reflexivity |].
  apply (touch_truncates file demo_world
           (JSON.stringify (JSON.OfManifest (manifest demo_project))));
    reflexivity.
Defined.

(** X9.  Removing a path at which nothing exists is rejected whatever
    [missingOk] says, and changes nothing: without [missingOk] by the
    guard of [remove], with it by the file-system plugin. *)
Theorem remove_missing_rejected (p : Path) (missingOk recursive : bool) (w : World) :
  Tauri.exists_ (fs w) (Io.absolute p) = false ->
  Tauri.exists_ (fs w) (Io.relativePath p) = false ->
  Io.remove p missingOk recursive w
  = (Err (if missingOk then FsFailure else Msg MSG_REMOVE_MISSING), w).
Proof.
  intros Habs Hrel. unfold Io.remove, bind, Io.exists_, reject, fs_call.
  rewrite Habs. destruct missingOk; cbn [negb andb]; [| reflexivity].
  unfold Tauri.remove. unfold Tauri.exists_, Tauri.node_at in Hrel.
  destruct (decide (Tauri.locate (Io.relativePath p) = [])); [reflexivity |].
  by destruct (fs w !! Tauri.locate (Io.relativePath p)).
Qed.

Lemma remove_missing_rejected_witness :
  let ghost := Io.join ProjectManager.getProjectsFolder ["ghost"] in
  Tauri.exists_ (fs demo_world) (Io.absolute ghost) = false
  /\ Io.remove ghost true true demo_world = (Err FsFailure, demo_world)
  /\ Io.remove ghost false true demo_world = (Err (Msg MSG_REMOVE_MISSING), demo_world).
Proof.
  intros ghost. split; [reflexivity |]. split.
  - apply (remove_missing_rejected ghost true true demo_world); reflexivity.
  - apply (remove_missing_rejected ghost false true demo_world); reflexivity.
Defined.

Lemma mkdir_all_again (todo above : list string) (f f' : Tauri.FS) :
  Tauri.mkdir_all f above todo = Some f' ->
  Tauri.mkdir_all f' above todo = Some f'.
Proof.
  revert above f. induction todo as [| c r IH]; intros above f; [done |].
  cbn [Tauri.mkdir_all]. intros Hrun.
  assert (Hdir : f' !! (above ++ [c]) = Some Tauri.Dir).
  { destruct (f !! (above ++ [c])) as [[| t] |] eqn:Hl; [| done |].
    - apply mkdir_all_adds in Hrun. apply adds_dirs_adds in Hrun.
      by apply (adds_keeps _ _ _ _ _ Hrun).
    - apply mkdir_all_adds in Hrun. apply adds_dirs_adds in Hrun.
      apply (adds_keeps _ _ _ _ _ Hrun). by rewrite lookup_insert_eq. }
  rewrite Hdir.
  destruct (f !! (above ++ [c])) as [[| t] |]; [| done |]; by apply IH in Hrun.
Qed.

(** X10.  [mkdir] with [existOk] and [recursive], the call by which
    [createProject] prepares the projects folder, is idempotent: once it
    has succeeded, calling it again succeeds and changes nothing. *)
Theorem mkdir_idempotent (p : Path) (w w1 : World) :
  Io.mkdir p true true w = (Ok tt, w1) ->
  Io.mkdir p true true w1 = (Ok tt, w1).
Proof.
  unfold Io.mkdir, bind, Io.exists_, fs_call, Tauri.mkdir.
  rewrite !andb_false_r.
  destruct (Tauri.mkdir_all (fs w) [] _) as [f' |] eqn:Hrun; [| done].
  intros [= <-]. cbn [fs set_fs].
  by rewrite (mkdir_all_again _ _ _ _ Hrun).
Qed.

Lemma mkdir_idempotent_witness :
  let root := ProjectManager.getProjectsFolder in
  let w1 := (Io.mkdir root true true empty_world).2 in
  Io.mkdir root true true empty_world = (Ok tt, w1)
  /\ Tauri.exists_ (fs w1) (Io.absolute root) = true
  /\ Io.mkdir root true true w1 = (Ok tt, w1).
Proof.
  intros root w1.
  assert (H : Io.mkdir root true true empty_world = (Ok tt, w1)) by reflexivity.
  split_and!; [exact H | reflexivity |].
  exact (mkdir_idempotent root empty_world w1 H).
Defined.

(** ** Opening what was saved *)

Lemma current_json_location :
  Tauri.locate (Io.absolute (Io.join ProjectManager.getLocalDataFolder ["current.json"]))
  = ["current.json"].
Proof. reflexivity. Qed.

(** What the un-awaited [setCurrentProject] leaves: the pointer file when
    it can be written, the world as it was when it cannot. *)
Lemma setCurrentProject_world (p : Project) (w : World) :
  (ProjectManager.setCurrentProject p w).2
  = match Tauri.put_file (fs w) ["current.json"] (JSON.stringify (JSON.OfProject p)) with
    | Ok f' => set_fs f' w
    | Err _ => w
    end.
Proof.
  unfold ProjectManager.setCurrentProject. rewrite bind_spawn.
  unfold ret, Io.rawWriteTextFile, fs_call, Tauri.writeTextFile.
  rewrite current_json_location.
  by destruct (Tauri.put_file _ _ _).
Qed.

Lemma setCurrentProject_elsewhere (p : Project) (w : World) (k : list string) :
  k <> ["current.json"] ->
  fs (ProjectManager.setCurrentProject p w).2 !! k = fs w !! k.
Proof.
  intros Hk. rewrite setCurrentProject_world.
  destruct (Tauri.put_file _ _ _) as [f' |] eqn:Hput; [| done].
  apply put_file_ok in Hput as (-> & _ & _). cbn [fs set_fs].
  by rewrite lookup_insert_ne.
Qed.

Lemma setCurrentProject_same_but_fs (p : Project) (w : World) :
  same_but_fs w (ProjectManager.setCurrentProject p w).2.
Proof.
  rewrite setCurrentProject_world. unfold same_but_fs.
  destruct (Tauri.put_file _ _ _); [reflexivity | by rewrite set_fs_same].
Qed.

Lemma readable_exists (f : Tauri.FS) (file : string) (t : JSON.Text) :
  Tauri.readTextFile f file = Ok t -> Tauri.exists_ f file = true.
Proof.
  unfold Tauri.readTextFile, Tauri.exists_.
  by destruct (Tauri.node_at f (Tauri.locate file)).
Qed.

(** [open_at] when the manifest file holds a manifest. *)
Lemma open_at_reads (folder : Path) (w : World) (m : Manifest.t) :
  Tauri.readTextFile (fs w) (manifest_file folder)
  = Ok (JSON.stringify (JSON.OfManifest m)) ->
  ProjectManager.open_at folder w
  = (Ok {| path := folder; manifest := m |},
     (ProjectManager.setCurrentProject {| path := folder; manifest := m |} w).2).
Proof.
  intros Hread. unfold ProjectManager.open_at.
  unfold Io.exists_, readTextFile, fs_read. fold (manifest_file folder).
  unfold bind at 1.
  rewrite (readable_exists _ _ _ Hread). cbn [negb].
  rewrite bind_spawn. change ((ret tt w).2) with w.
  unfold bind at 1. cbv beta. rewrite Hread.
  unfold bind at 1. unfold settled. cbn [JSON.stringify JSON.parse_manifest JSON.parse].
  rewrite bind_spawn. reflexivity.
Qed.

(** [open_at], when it is fulfilled, has read a manifest. *)
Lemma open_at_fulfilled (folder : Path) (w w' : World) (p : Project) :
  ProjectManager.open_at folder w = (Ok p, w') ->
  exists t, Tauri.readTextFile (fs w) (manifest_file folder) = Ok t
            /\ JSON.parse_manifest t = Ok (manifest p)
            /\ path p = folder
            /\ w' = (ProjectManager.setCurrentProject p w).2.
Proof.
  unfold ProjectManager.open_at.
  unfold Io.exists_, readTextFile, fs_read. fold (manifest_file folder).
  unfold bind at 1.
  rewrite bind_spawn.
  assert (Hspawn : forall b, ((if negb b then reject (Msg MSG_NO_MANIFEST) else ret tt) w).2 = w)
    by (by intros []).
  rewrite Hspawn.
  unfold bind at 1. cbv beta.
  destruct (Tauri.readTextFile (fs w) (manifest_file folder)) as [t | e]; [| done].
  unfold bind at 1. unfold settled.
  destruct (JSON.parse_manifest t) as [m | e] eqn:Hparse; [| done].
  rewrite bind_spawn. unfold ret at 1. intros [= <- <-].
  exists t. split_and!; [done | exact Hparse | done | reflexivity].
Qed.

(** X11.  Whether [openProject] succeeds depends on the manifest file
    alone: when it holds a manifest the call returns the project with
    that manifest, even where the pointer to the current project cannot
    be written; apart from that pointer the disk is not changed. *)
Theorem openProject_reads_manifest (w : World) (folderName : string + Path)
    (m : Manifest.t) :
  Tauri.readTextFile (fs w) (manifest_file (project_folder folderName))
  = Ok (JSON.stringify (JSON.OfManifest m)) ->
  let after := ProjectManager.openProject folderName w in
  after.1 = Ok {| path := project_folder folderName; manifest := m |}
  /\ (forall k, k <> ["current.json"] -> fs after.2 !! k = fs w !! k)
  /\ same_but_fs w after.2.
Proof.
  intros Hread after.
  assert (Hrun : after = ProjectManager.open_at (project_folder folderName) w)
    by (by destruct folderName).
  rewrite Hrun, (open_at_reads _ _ _ Hread). cbn [fst snd].
  split_and!; [done | | apply setCurrentProject_same_but_fs].
  intros k Hk. by apply setCurrentProject_elsewhere.
Qed.

Lemma openProject_reads_manifest_witness :
  let blocked := set_fs (<[ ["current.json"] := Tauri.Dir ]> (fs demo_world)) demo_world in
  Tauri.readTextFile (fs blocked) (manifest_file (project_folder (inl "demo")))
  = Ok (JSON.stringify (JSON.OfManifest (manifest demo_project)))
  /\ (ProjectManager.openProject (inl "demo") blocked).1 = Ok demo_project
  /\ fs (ProjectManager.openProject (inl "demo") blocked).2 !! ["current.json"]
     = Some Tauri.Dir.
Proof.
  intros blocked. split; [vm_compute; reflexivity |].
  destruct (openProject_reads_manifest blocked (inl "demo") (manifest demo_project))
    as (Hres & _ & _); [vm_compute; reflexivity |].
  split; [exact Hres | vm_compute; reflexivity].
Defined.

(** X12.  A manifest that [saveManifest] has written is what
    [openProject] on the project's path returns. *)
Theorem openProject_after_saveManifest (p : Project) (w w' : World) :
  ProjectManager.saveManifest p w = (Ok tt, w') ->
  (ProjectManager.openProject (inr (path p)) w').1 = Ok p.
Proof.
  intros Hsave. apply saveManifest_persists in Hsave.
  cbn [ProjectManager.openProject].
  rewrite (open_at_reads _ _ _ Hsave). by destruct p.
Qed.

Lemma openProject_after_saveManifest_witness :
  let w' := (ProjectManager.saveManifest gallery_project demo_world).2 in
  ProjectManager.saveManifest gallery_project demo_world = (Ok tt, w')
  /\ (ProjectManager.openProject (inr (path gallery_project)) w').1 = Ok gallery_project.
Proof.
  intros w'.
  assert (H : ProjectManager.saveManifest gallery_project demo_world = (Ok tt, w'))
    by (vm_compute; reflexivity).
  split; [exact H |].
  exact (openProject_after_saveManifest gallery_project demo_world w' H).
Defined.

(** X13.  Opening a project records it as the current one: after a
    fulfilled [openProject], [getCurrentProject] returns that project,
    provided no directory stands where the pointer file goes. *)
Theorem getCurrentProject_after_openProject (w w' : World)
    (folderName : string + Path) (p : Project) :
  ProjectManager.openProject folderName w = (Ok p, w') ->
  fs w !! ["current.json"] <> Some Tauri.Dir ->
  ProjectManager.getCurrentProject w' = (Ok p, w').
Proof.
  intros Hopen Hfree.
  assert (Hrun : ProjectManager.open_at (project_folder folderName) w = (Ok p, w'))
    by (by destruct folderName).
  apply open_at_fulfilled in Hrun as (t & _ & _ & _ & ->).
  rewrite setCurrentProject_world.
  rewrite (put_file_succeeds (fs w) ["current.json"]) by done.
  unfold ProjectManager.getCurrentProject.
  unfold bind at 1. unfold readTextFile, fs_read, Tauri.readTextFile.
  rewrite current_json_location. cbn [fs set_fs].
  rewrite node_at_put_file by done. reflexivity.
Qed.

Lemma getCurrentProject_after_openProject_witness :
  let w' := (ProjectManager.openProject (inl "demo") demo_world).2 in
  ProjectManager.openProject (inl "demo") demo_world = (Ok demo_project, w')
  /\ (ProjectManager.getCurrentProject demo_world).1 = Err FsFailure
  /\ ProjectManager.getCurrentProject w' = (Ok demo_project, w').
Proof.
  intros w'.
  assert (H : ProjectManager.openProject (inl "demo") demo_world = (Ok demo_project, w'))
    by (vm_compute; reflexivity).
  split_and!; [exact H | vm_compute; reflexivity |].
  apply (getCurrentProject_after_openProject demo_world w' (inl "demo") demo_project H).
  by vm_compute.
Defined.



(** ** What [createProject] touches *)

Lemma mkdir_all_untouched (todo above : list string) (f f' : Tauri.FS) (k : list string) :
  Tauri.mkdir_all f above todo = Some f' ->
  ~ (above ++ take 1 todo) `prefix_of` k ->
  f' !! k = f !! k.
Proof.
  revert above f. induction todo as [| c r IH]; intros above f; [by intros [= <-] |].
  cbn [Tauri.mkdir_all take]. intros Hrun Hout.
  assert (Hk : k <> above ++ [c]) by (by intros ->).
  assert (Hout' : ~ ((above ++ [c]) ++ take 1 r) `prefix_of` k).
  { intros Hpre. apply Hout. by apply prefix_app_l in Hpre. }
  destruct (f !! (above ++ [c])) as [[| t] |]; [| done |].
  - by apply (IH _ _ Hrun).
  - rewrite (IH _ _ Hrun Hout'). by rewrite lookup_insert_ne.
Qed.

Lemma Io_mkdir_untouched (p : Path) (existOk : bool) (w : World) (k : list string) :
  ~ take 1 (Tauri.locate (Io.absolute p)) `prefix_of` k ->
  fs (Io.mkdir p existOk true w).2 !! k = fs w !! k.
Proof.
  intros Hout. unfold Io.mkdir, bind, Io.exists_, reject, fs_call.
  destruct (_ && _); cbn [snd]; [done |].
  unfold Tauri.mkdir.
  destruct (Tauri.mkdir_all _ _ _) as [f' |] eqn:Hrun; cbn [snd fs set_fs]; [| done].
  by apply (mkdir_all_untouched _ _ _ _ _ Hrun).
Qed.

Lemma Io_touch_untouched (p : Path) (existOk : bool) (w : World) (k : list string) :
  k <> Tauri.locate (Io.absolute p) ->
  fs (Io.touch p existOk w).2 !! k = fs w !! k.
Proof.
  intros Hk. unfold Io.touch, bind, Io.exists_, reject, fs_call.
  destruct (_ && _); cbn [snd]; [done |].
  unfold Tauri.create.
  destruct (Tauri.put_file _ _ _) as [f' |] eqn:Hput; cbn [snd fs set_fs]; [| done].
  apply put_file_ok in Hput as (-> & _ & _). by rewrite lookup_insert_ne.
Qed.

Lemma sanitize_empty (name : string) :
  ProjectManager.sanitize name = "" -> name = "".
Proof. by destruct name. Qed.

(** Where the project folder and its manifest are, for every name. *)
Lemma project_locations (name : string) :
  exists rest,
    Tauri.locate (Io.absolute (path (first_project name empty_world)))
    = "Rack Designer" :: rest
    /\ Tauri.locate (manifest_file (path (first_project name empty_world)))
       = "Rack Designer" :: rest ++ ["manifest.json"].
Proof.
  destruct (decide (ProjectManager.sanitize name = "")) as [Hempty | Hname].
  - apply sanitize_empty in Hempty as ->. exists ["Projects"]. by split.
  - pose proof (sanitize_plain _ Hname) as HS.
    destruct plain_literals as (HRD & HP & HA & HM).
    exists ["Projects"; ProjectManager.sanitize name].
    assert (Hpath : path (first_project name empty_world)
                    = {| basePathParts := Arr [];
                         pathParts := Arr ["Rack Designer"; "Projects";
                                           ProjectManager.sanitize name] |}).
    { apply (Io_join_plain ["Rack Designer"; "Projects"]); [plain_segments | done]. }
    rewrite Hpath. split.
    + apply locate_absolute_plain. plain_segments.
    + unfold manifest_file.
      rewrite (Io_join_plain _ ["manifest.json"]) by (first [plain_segments | done]).
      apply locate_absolute_plain. plain_segments.
Qed.

Lemma head_not_prefix (x : string) (rest k : list string) :
  head k <> Some x -> ~ take 1 (x :: rest) `prefix_of` k.
Proof.
  intros Hhead [suffix ->]. by apply Hhead.
Qed.

(** The tree that [createProject] has prepared differs from the one it
    found inside [Rack Designer] only. *)
Lemma prepared_untouched (name : string) (w : World) (k : list string) :
  head k <> Some "Rack Designer" ->
  fs (prepared name w) !! k = fs w !! k.
Proof.
  intros Hhead. unfold prepared. cbv zeta.
  destruct (project_locations name) as (rest & Hfolder & _).
  change (path (first_project name empty_world))
    with (Io.join ProjectManager.getProjectsFolder [ProjectManager.sanitize name])
    in Hfolder.
  rewrite Io_touch_untouched by (intros ->; by apply Hhead).
  rewrite Io_mkdir_untouched by (by apply (head_not_prefix _ ["Projects"; "assets"])).
  rewrite Io_mkdir_untouched by (rewrite Hfolder; by apply head_not_prefix).
  rewrite Io_mkdir_untouched by (by apply (head_not_prefix _ ["Projects"])).
  reflexivity.
Qed.

Lemma createProject_fs (name : string) (w : World) :
  fs (ProjectManager.createProject name w).2
  = match Tauri.put_file (fs (prepared name w))
            (Tauri.locate (manifest_file (path (first_project name w))))
            (JSON.stringify (JSON.OfManifest (first_manifest name w))) with
    | Ok f' => f'
    | Err _ => fs (prepared name w)
    end.
Proof.
  rewrite createProject_unfold.
  unfold ProjectManager.saveManifest, bind, Io.rawWriteTextFile, fs_call, ret.
  fold (manifest_file (path (first_project name w))).
  unfold Tauri.writeTextFile.
  change (manifest (first_project name w)) with (first_manifest name w).
  change (fs (now (now (prepared name w)).2).2) with (fs (prepared name w)).
  by destruct (Tauri.put_file _ _ _).
Qed.

(** X15.  [createProject] touches nothing outside the [Rack Designer]
    folder, fulfilled or rejected.  In particular it does not record the
    project as the current one: [getCurrentProject] answers after it as
    before. *)
Theorem createProject_confined (name : string) (w : World) :
  let w' := (ProjectManager.createProject name w).2 in
  (forall k, head k <> Some "Rack Designer" -> fs w' !! k = fs w !! k)
  /\ (ProjectManager.getCurrentProject w').1 = (ProjectManager.getCurrentProject w).1.
Proof.
  cbv zeta.
  assert (Hout : forall k, head k <> Some "Rack Designer" ->
                           fs (ProjectManager.createProject name w).2 !! k = fs w !! k).
  { intros k Hhead. rewrite createProject_fs.
    destruct (Tauri.put_file _ _ _) as [f' |] eqn:Hput;
      [| by apply prepared_untouched].
    apply put_file_ok in Hput as (-> & _ & _).
    destruct (project_locations name) as (rest & _ & Hfile).
    change (path (first_project name empty_world))
      with (path (first_project name w)) in Hfile.
    rewrite lookup_insert_ne; [by apply prepared_untouched |].
    rewrite Hfile. intros <-. by apply Hhead. }
  split; [exact Hout |].
  unfold ProjectManager.getCurrentProject, bind, readTextFile, fs_read,
    Tauri.readTextFile, Tauri.node_at.
  rewrite current_json_location. cbn [decide].
  destruct (decide (["current.json"] = [])); [done |].
  rewrite Hout by (intros [=]).
  destruct (fs w !! ["current.json"]) as [[| t] |]; [reflexivity | | reflexivity].
  unfold settled. by destruct (JSON.parse t) as [[m | p] | e].
Qed.

Lemma createProject_confined_witness :
  fs (ProjectManager.createProject "demo" empty_world).2 !! ["current.json"]
  = fs empty_world !! ["current.json"].
Proof.
  destruct (createProject_confined "demo" empty_world) as (Hfs & _).
  apply Hfs. intros [=].
Defined.

(** X16.  [createProject] overwrites one file at most, the manifest of
    the project: nothing else that was on disk is changed or removed. *)
Theorem createProject_keeps (name : string) (w : World) (k : list string)
    (x : Tauri.Node) :
  k <> Tauri.locate (manifest_file (path (first_project name w))) ->
  fs w !! k = Some x ->
  fs (ProjectManager.createProject name w).2 !! k = Some x.
Proof.
  intros Hk Hx.
  assert (Hprepared : fs (prepared name w) !! k = Some x).
  { unfold prepared. cbv zeta.
    eapply adds_keeps; [apply Io_touch_adds |].
    eapply adds_keeps; [apply adds_dirs_adds, Io_mkdir_adds |].
    eapply adds_keeps; [apply adds_dirs_adds, Io_mkdir_adds |].
    eapply adds_keeps; [apply adds_dirs_adds, Io_mkdir_adds |].
    exact Hx. }
  rewrite createProject_fs.
  destruct (Tauri.put_file _ _ _) as [f' |] eqn:Hput; [| done].
  apply put_file_ok in Hput as (-> & _ & _).
  by rewrite lookup_insert_ne.
Qed.

Lemma createProject_keeps_witness :
  fs photo_world !! ["tmp"; "photo.png"] = Some (Tauri.File (JSON.Plain "PNG"))
  /\ fs (ProjectManager.createProject "demo" photo_world).2 !! ["tmp"; "photo.png"]
     = Some (Tauri.File (JSON.Plain "PNG")).
Proof.
  split; [vm_compute; reflexivity |].
  apply (createProject_keeps "demo" photo_world); [by vm_compute | vm_compute; reflexivity].
Defined.

(** X17.  When [createProject] is rejected, it is by the write of the
    manifest, a file-system failure, and there is no rollback: what the
    un-awaited [mkdir] and [touch] calls have made stays on disk. *)
Theorem createProject_rejected (name : string) (w : World) (e : Rejection) :
  (ProjectManager.createProject name w).1 = Err e ->
  e = FsFailure
  /\ kind_of e = IOFailure
  /\ fs (ProjectManager.createProject name w).2 = fs (prepared name w).
Proof.
  rewrite createProject_fs, createProject_unfold.
  unfold ProjectManager.saveManifest, bind, Io.rawWriteTextFile, fs_call, ret.
  fold (manifest_file (path (first_project name w))).
  unfold Tauri.writeTextFile.
  change (manifest (first_project name w)) with (first_manifest name w).
  change (fs (now (now (prepared name w)).2).2) with (fs (prepared name w)).
  destruct (Tauri.put_file _ _ _) as [f' | e'] eqn:Hput; [done |].
  intros [= <-]. apply put_file_rejection in Hput as ->. done.
Qed.

Lemma createProject_rejected_witness :
  let after := ProjectManager.createProject "demo" blocked_manifest_world in
  after.1 = Err FsFailure
  /\ fs blocked_manifest_world !! ["Rack Designer"; "Projects"; "assets"] = None
  /\ fs after.2 !! ["Rack Designer"; "Projects"; "assets"] = Some Tauri.Dir
  /\ fs after.2 = fs (prepared "demo" blocked_manifest_world).
Proof.
  intros after.
  assert (H : after.1 = Err FsFailure) by (vm_compute; reflexivity).
  destruct (createProject_rejected "demo" blocked_manifest_world FsFailure H)
    as (_ & _ & Hfs).
  split_and!; [exact H | vm_compute; reflexivity | vm_compute; reflexivity | exact Hfs].
Defined.

(** ** Listing projects, in general *)

Lemma openProject_fulfilled (folderName : string + Path) (w w' : World) (p : Project) :
  ProjectManager.openProject folderName w = (Ok p, w') ->
  path p = project_folder folderName
  /\ Tauri.exists_ (fs w) (manifest_file (project_folder folderName)) = true
  /\ forall k, k <> ["current.json"] -> fs w' !! k = fs w !! k.
Proof.
  intros Hopen.
  assert (Hrun : ProjectManager.open_at (project_folder folderName) w = (Ok p, w'))
    by (by destruct folderName).
  apply open_at_fulfilled in Hrun as (t & Hread & _ & Hpath & ->).
  split_and!; [exact Hpath | by apply (readable_exists _ _ t) |].
  intros k Hk. by apply setCurrentProject_elsewhere.
Qed.

Lemma open_entries_paths (es : list Tauri.DirEntry) (acc ps : list Project)
    (w w' : World) :
  ProjectManager.open_entries es acc w = (Ok ps, w') ->
  exists ps', ps = acc ++ ps' /\ map path ps' = map entry_path (directories es).
Proof.
  revert acc w. induction es as [| e es IH]; intros acc w.
  - intros [= <- _]. exists []. by rewrite app_nil_r.
  - cbn [ProjectManager.open_entries]. unfold directories.
    destruct (Tauri.isDirectory e) eqn:Hdir.
    + rewrite filter_cons_True by done.
      unfold bind at 1.
      destruct (ProjectManager.openProject (inl (Tauri.entry_name e)) w)
        as [[p | err] w1] eqn:Hopen; [| done].
      intros Hrest. apply IH in Hrest as (ps' & -> & Hpaths).
      apply openProject_fulfilled in Hopen as (Hpath & _ & _).
      exists (p :: ps'). split; [by rewrite <- app_assoc |].
      cbn [map]. by rewrite Hpath, Hpaths.
    + rewrite filter_cons_False by (by rewrite Hdir).
      apply IH.
Qed.

(** X18.  When [listProjects] is fulfilled, its list has one project per
    sub-directory of the projects folder, in the order of the listing,
    each with the path of that sub-directory; plain files in the folder
    are passed over. *)
Theorem listProjects_lists_directories (w w' : World) (ps : list Project)
    (es : list Tauri.DirEntry) :
  ProjectManager.listProjects w = (Ok ps, w') ->
  Tauri.readDir (fs w) (Io.absolute ProjectManager.getProjectsFolder) = Ok es ->
  map path ps = map entry_path (directories es)
  /\ length ps = length (directories es).
Proof.
  intros Hlist Hdir.
  assert (Hpaths : map path ps = map entry_path (directories es)).
  { assert (Hroot : Tauri.exists_ (fs w)
                        (Io.absolute ProjectManager.getProjectsFolder) = true).
    { unfold Tauri.readDir, Tauri.exists_ in *.
      by destruct (Tauri.node_at _ _) as [[| t] |]. }
    revert Hlist.
    unfold ProjectManager.listProjects, bind, Io.exists_, Io.readDir, fs_read.
    cbv beta. rewrite Hroot. cbn [negb]. cbv beta iota. rewrite Hdir. cbv beta iota.
    destruct (decide (length es = 0%nat)) as [Hlen | _].
    - intros [= <- _]. by destruct es.
    - intros Hrun. by apply open_entries_paths in Hrun as (ps' & -> & ?). }
  split; [exact Hpaths |].
  apply (f_equal length) in Hpaths. by rewrite !length_map in Hpaths.
Qed.

Lemma listProjects_lists_directories_witness :
  (ProjectManager.listProjects shelf_world).1
  = Ok [ {| path := entry_path {| Tauri.entry_name := "beta"; Tauri.isDirectory := true |};
            manifest := beta_manifest |};
         {| path := entry_path {| Tauri.entry_name := "alpha"; Tauri.isDirectory := true |};
            manifest := alpha_manifest |} ]
  /\ exists ps es,
       Tauri.readDir (fs shelf_world) (Io.absolute ProjectManager.getProjectsFolder) = Ok es
       /\ length es = 3%nat
       /\ (ProjectManager.listProjects shelf_world).1 = Ok ps
       /\ map path ps = map entry_path (directories es)
       /\ length ps = length (directories es).
Proof.
  split; [vm_compute; reflexivity |].
  destruct (ProjectManager.listProjects shelf_world) as [[ps | e] w'] eqn:Hlist;
    [| vm_compute in Hlist; discriminate].
  destruct (Tauri.readDir (fs shelf_world)
              (Io.absolute ProjectManager.getProjectsFolder)) as [es | e] eqn:Hdir;
    [| vm_compute in Hdir; discriminate].
  exists ps, es.
  split_and!; [reflexivity | | reflexivity
              | apply (listProjects_lists_directories _ _ _ _ Hlist Hdir)
              | apply (listProjects_lists_directories _ _ _ _ Hlist Hdir)].
  vm_compute in Hdir. by injection Hdir as <-.
Defined.

(** The manifest of any folder is a file named [manifest.json]; it is
    not the pointer file. *)
Lemma manifest_location_last (folder : Path) :
  exists cs, Tauri.locate (manifest_file folder) = cs ++ ["manifest.json"].
Proof.
  unfold manifest_file. rewrite locate_absolute_join.
  rewrite components_concat_plain
    by (apply Forall_cons_2; [apply plain_literals | apply Forall_nil_2]).
  by eexists.
Qed.

Lemma manifest_not_pointer (folder : Path) :
  Tauri.locate (manifest_file folder) <> ["current.json"].
Proof.
  destruct (manifest_location_last folder) as [cs ->].
  intros Heq. destruct cs as [| c [| c' cs]]; discriminate.
Qed.

Lemma exists_elsewhere (f f' : Tauri.FS) (file : string) :
  (forall k, k <> ["current.json"] -> f' !! k = f !! k) ->
  Tauri.locate file <> ["current.json"] ->
  Tauri.exists_ f' file = Tauri.exists_ f file.
Proof.
  intros Hsame Hfile. unfold Tauri.exists_, Tauri.node_at.
  destruct (decide (Tauri.locate file = [])); [done |]. by rewrite Hsame.
Qed.

Lemma open_entries_rejected (es : list Tauri.DirEntry) (e : Tauri.DirEntry)
    (acc : list Project) (w : World) :
  e ∈ es -> Tauri.isDirectory e = true ->
  Tauri.exists_ (fs w) (manifest_file (entry_path e)) = false ->
  exists err, (ProjectManager.open_entries es acc w).1 = Err err.
Proof.
  intros Hin Hdir. revert acc w Hin.
  induction es as [| x es IH]; intros acc w Hin Hmissing; [by apply elem_of_nil in Hin |].
  cbn [ProjectManager.open_entries].
  destruct (Tauri.isDirectory x) eqn:Hx.
  - unfold bind at 1.
    destruct (ProjectManager.openProject (inl (Tauri.entry_name x)) w)
      as [[p | err] w1] eqn:Hopen; [| by exists err].
    apply openProject_fulfilled in Hopen as (_ & Hexists & Hsame).
    apply elem_of_cons in Hin as [-> | Hin].
    + unfold entry_path in Hmissing. cbn [project_folder] in Hexists. congruence.
    + apply IH; [done |].
      rewrite (exists_elsewhere (fs w) (fs w1)); [done | done |].
      apply manifest_not_pointer.
  - apply elem_of_cons in Hin as [-> | Hin]; [congruence |]. by apply IH.
Qed.

(** X19.  [listProjects] is all or nothing: if one sub-directory of the
    projects folder has no [manifest.json], the whole listing is
    rejected, whatever the other sub-directories hold. *)
Theorem listProjects_all_or_nothing (w : World) (es : list Tauri.DirEntry)
    (e : Tauri.DirEntry) :
  Tauri.readDir (fs w) (Io.absolute ProjectManager.getProjectsFolder) = Ok es ->
  e ∈ es -> Tauri.isDirectory e = true ->
  Tauri.exists_ (fs w) (manifest_file (entry_path e)) = false ->
  exists err, (ProjectManager.listProjects w).1 = Err err.
Proof.
  intros Hread Hin Hdir Hmissing.
  unfold ProjectManager.listProjects, bind, Io.exists_, Io.readDir, fs_read.
  assert (Hroot : Tauri.exists_ (fs w) (Io.absolute ProjectManager.getProjectsFolder) = true).
  { unfold Tauri.readDir, Tauri.exists_ in *.
    by destruct (Tauri.node_at _ _) as [[| t] |]. }
  cbv beta. rewrite Hroot. cbn [negb]. cbv beta iota. rewrite Hread. cbv beta iota.
  destruct (decide (length es = 0%nat)) as [Hlen | _].
  - destruct es; [by apply elem_of_nil in Hin | done].
  - by apply (open_entries_rejected es e).
Qed.

Lemma listProjects_all_or_nothing_witness :
  let gap := set_fs (<[ ["Rack Designer"; "Projects"; "gamma"] := Tauri.Dir ]>
                       (fs shelf_world)) shelf_world in
  (ProjectManager.listProjects shelf_world).1 <> Err FsFailure
  /\ exists err, (ProjectManager.listProjects gap).1 = Err err.
Proof.
  intros gap. split; [by vm_compute |].
  destruct (Tauri.readDir (fs gap) (Io.absolute ProjectManager.getProjectsFolder))
    as [es | err] eqn:Hread; [| vm_compute in Hread; discriminate].
  apply (listProjects_all_or_nothing gap es
           {| Tauri.entry_name := "gamma"; Tauri.isDirectory := true |} Hread);
    [| reflexivity | reflexivity].
  vm_compute in Hread. injection Hread as <-.
  apply list_elem_of_In. cbn. tauto.
Defined.

(** ** Removing a texture, further *)

Lemma absolute_of_join (p : Path) (segs : list string) :
  Io.absolute (Io.join p segs) = Io.relativePath (Io.join p segs).
Proof. reflexivity. Qed.

Lemma Io_remove_fulfilled (file : Path) (w w1 : World) :
  Io.remove file false false w = (Ok tt, w1) ->
  Tauri.locate (Io.relativePath file) <> []
  /\ w1 = set_fs (delete (Tauri.locate (Io.relativePath file)) (fs w)) w.
Proof.
  unfold Io.remove, bind, Io.exists_, reject, fs_call.
  destruct (negb _ && negb _); [done |].
  unfold Tauri.remove.
  destruct (decide (Tauri.locate (Io.relativePath file) = [])) as [| Hne]; [done |].
  destruct (fs w !! Tauri.locate (Io.relativePath file)) as [[| t] |]; [| | done].
  - destruct (Tauri.entries _ _); [| done]. by intros [= <-].
  - by intros [= <-].
Qed.

(** X20.  When [removeTexture] returns [true], the asset file of the
    removed record is gone from disk (the asset not being the manifest
    file itself), as the record is from the manifest that was written. *)
Theorem removeTexture_deletes_asset (s s' : Session) (textureId : string)
    (i : nat) (t : Texture.t) :
  first_with_id (Manifest.textures (manifest (project s))) textureId i t ->
  let asset := Io.absolute (ProjectManager.getTexturePath (project s) t) in
  Tauri.locate asset <> Tauri.locate (manifest_file (path (project s))) ->
  ProjectManager.removeTexture textureId s = (Ok true, s') ->
  Tauri.exists_ (fs (world s')) asset = false
  /\ Tauri.readTextFile (fs (world s')) (manifest_file (path (project s)))
     = Ok (JSON.stringify (JSON.OfManifest (manifest (project s'))))
  /\ Manifest.textures (manifest (project s'))
     = delete i (Manifest.textures (manifest (project s))).
Proof.
  destruct s as [p w]. cbn [project world]. intros Hfirst Hapart.
  rewrite (removeTexture_found p w textureId i t Hfirst).
  destruct (Io.remove _ false false w) as [[[] | e] w1] eqn:Hrm; [| done].
  cbv zeta.
  destruct (ProjectManager.saveManifest _ _) as [[[] | e] w2] eqn:Hsave; [| done].
  intros [= <-]. cbn [project world].
  apply Io_remove_fulfilled in Hrm as (Hne & ->).
  pose proof (saveManifest_persists _ _ _ Hsave) as Hread.
  apply saveManifest_ok in Hsave as (f' & Hput & ->).
  apply put_file_ok in Hput as (-> & _ & _).
  split_and!; [| exact Hread | reflexivity].
  unfold Tauri.exists_, Tauri.node_at.
  unfold ProjectManager.getTexturePath in *. rewrite absolute_of_join in *.
  destruct (decide (_ = [])); [done |].
  cbn [fs set_fs now snd]. rewrite lookup_insert_ne
    by (intros Heq; apply Hapart; symmetry; exact Heq).
  by rewrite lookup_delete_eq.
Qed.

Lemma removeTexture_deletes_asset_witness :
  let after := ProjectManager.removeTexture "a" gallery in
  let asset := Io.absolute (ProjectManager.getTexturePath gallery_project texture_a) in
  Tauri.exists_ (fs gallery_world) asset = true
  /\ after.1 = Ok true
  /\ Tauri.exists_ (fs (world after.2)) asset = false
  /\ Manifest.textures (manifest (project after.2)) = [texture_b].
Proof.
  intros after asset.
  assert (Hfirst : first_with_id [texture_a; texture_b] "a" 0 texture_a).
  { split_and!; [reflexivity | reflexivity |]. intros j t' Hj. lia. }
  assert (Hrun : ProjectManager.removeTexture "a" gallery = (Ok true, after.2))
    by (vm_compute; reflexivity).
  destruct (removeTexture_deletes_asset gallery after.2 "a" 0 texture_a Hfirst)
    as (Hgone & _ & Hts); [by vm_compute | exact Hrun |].
  split_and!; [vm_compute; reflexivity | vm_compute; reflexivity
              | exact Hgone | exact Hts].
Defined.

(** X21.  There is no rollback in [removeTexture]: when the asset file
    has been deleted and the manifest then cannot be written, the call
    is rejected with that file-system failure, the file stays deleted and
    the project object has already lost the record and changed its
    [modifiedAt]. *)
Theorem removeTexture_write_fails (s : Session) (textureId : string)
    (i : nat) (t : Texture.t) (w1 w2 : World) (e : Rejection) :
  first_with_id (Manifest.textures (manifest (project s))) textureId i t ->
  Io.remove (ProjectManager.getTexturePath (project s) t) false false (world s)
  = (Ok tt, w1) ->
  let p' := without_texture i (time w1) (project s) in
  ProjectManager.saveManifest p' (now w1).2 = (Err e, w2) ->
  ProjectManager.removeTexture textureId s = (Err e, {| project := p'; world := w2 |})
  /\ e = FsFailure
  /\ fs w2 = delete (Tauri.locate
                       (Io.absolute (ProjectManager.getTexturePath (project s) t)))
               (fs (world s))
  /\ Manifest.textures (manifest p')
     = delete i (Manifest.textures (manifest (project s))).
Proof.
  destruct s as [p w]. cbn [project world]. intros Hfirst Hrm Hsave.
  rewrite (removeTexture_found p w textureId i t Hfirst), Hrm. cbv zeta.
  rewrite Hsave.
  apply Io_remove_fulfilled in Hrm as (_ & ->).
  revert Hsave.
  unfold ProjectManager.saveManifest, bind, Io.rawWriteTextFile, fs_call, ret.
  unfold Tauri.writeTextFile.
  destruct (Tauri.put_file _ _ _) as [f' | e'] eqn:Hput; [done |].
  intros [= <- <-]. apply put_file_rejection in Hput as ->.
  split_and!; reflexivity.
Qed.

Lemma removeTexture_write_fails_witness :
  let after := ProjectManager.removeTexture "a" blocked_gallery in
  let asset := Io.absolute (ProjectManager.getTexturePath gallery_project texture_a) in
  Tauri.exists_ (fs (world blocked_gallery)) asset = true
  /\ after.1 = Err FsFailure
  /\ Tauri.exists_ (fs (world after.2)) asset = false
  /\ Manifest.textures (manifest (project after.2)) = [texture_b].
Proof.
  intros after asset.
  assert (Hfirst : first_with_id [texture_a; texture_b] "a" 0 texture_a).
  { split_and!; [reflexivity | reflexivity |]. intros j t' Hj. lia. }
  pose (w1 := (Io.remove (ProjectManager.getTexturePath gallery_project texture_a)
                 false false (world blocked_gallery)).2).
  pose (w2 := (ProjectManager.saveManifest
                 (without_texture 0 (time w1) gallery_project) (now w1).2).2).
  destruct (removeTexture_write_fails blocked_gallery "a" 0 texture_a w1 w2 FsFailure
              Hfirst) as (Hrun & _ & _ & Hts);
    [vm_compute; reflexivity | vm_compute; reflexivity |].
  unfold after. rewrite Hrun.
  split_and!; [vm_compute; reflexivity | reflexivity
              | vm_compute; reflexivity | vm_compute; reflexivity].
Defined.

(** ** The callers *)

Lemma bind_attempt {S A B} (m : M S A) (k : Result A -> M S B) (s : S) :
  bind (attempt m) k s = k (m s).1 (m s).2.
Proof. reflexivity. Qed.

(** X22.  [addTextureExample] returns [null] for every project in every
    world, whether the user dismisses the dialog or selects a file, and
    leaves the project object and the disk as they were: the rejection
    of [addTexture] is caught. *)
Theorem addTextureExample_returns_null (s : Session) :
  let after := ExampleUsage.addTextureExample s in
  after.1 = Ok None
  /\ project after.2 = project s
  /\ fs (world after.2) = fs (world s).
Proof.
  cbv zeta. unfold ExampleUsage.addTextureExample. rewrite bind_attempt.
  destruct (picked (world s)) as [sel |] eqn:Hpick.
  - rewrite (addTexture_after_selection s sel Hpick). by split_and!.
  - destruct s as [p w]. cbn [world] in Hpick.
    unfold ProjectManager.addTexture, bind, in_world, openFilePicker.
    cbn [fst snd world project]. rewrite Hpick. by split_and!.
Qed.

(** X23.  [openExistingProjectExample] turns the rejection of
    [importProject] into [null]: when the user dismisses the dialog it
    returns [null] and changes nothing. *)
Theorem openExistingProjectExample_dismissed (w : World) :
  picked w = None ->
  ExampleUsage.openExistingProjectExample w = (Ok None, w).
Proof.
  intros Hpick. unfold ExampleUsage.openExistingProjectExample.
  rewrite bind_attempt.
  assert (Himport : ProjectManager.importProject w = (Err (Msg MSG_USER_CLOSED), w)).
  { unfold ProjectManager.importProject, bind, openFilePicker. by rewrite Hpick. }
  rewrite (bind_err _ _ _ _ _ Himport). reflexivity.
Qed.

Lemma openExistingProjectExample_dismissed_witness :
  picked demo_world = None
  /\ ExampleUsage.openExistingProjectExample demo_world = (Ok None, demo_world).
Proof.
  split; [reflexivity |].
  apply (openExistingProjectExample_dismissed demo_world). reflexivity.
Defined.

(** ** Where the assets are *)

Lemma no_sep_app (a b : string) : no_sep (a +:+ b) = no_sep a && no_sep b.
Proof.
  induction a as [| c a IH]; [done |].
  change (String c a +:+ b) with (String c (a +:+ b)).
  cbn [no_sep]. by rewrite IH, andb_assoc.
Qed.

Lemma texture_file_plain (t : Texture.t) :
  no_sep (Texture.id t) = true -> no_sep (Texture.extension t) = true ->
  plain ("texture_" +:+ Texture.id t +:+ Texture.extension t).
Proof.
  intros Hid Hext. split_and!; [done | done | done |].
  by rewrite !no_sep_app, Hid, Hext.
Qed.

Lemma texture_location (base : Parts) (l : list string) (m : Manifest.t)
    (t : Texture.t) :
  Forall plain l ->
  no_sep (Texture.id t) = true -> no_sep (Texture.extension t) = true ->
  Tauri.locate (Io.absolute (ProjectManager.getTexturePath
    {| path := {| basePathParts := base; pathParts := Arr l |}; manifest := m |} t))
  = l ++ ["assets"; "texture_" +:+ Texture.id t +:+ Texture.extension t].
Proof.
  intros Hl Hid Hext.
  pose proof (texture_file_plain t Hid Hext) as Hfile.
  destruct plain_literals as (_ & _ & HA & _).
  unfold ProjectManager.getTexturePath. rewrite locate_absolute_join.
  cbn [path pathParts Io.spread]. apply components_concat_with_sep.
  apply Forall_app. split; [done |]. by repeat apply Forall_cons_2.
Qed.

(** X24.  For a project whose path is made of plain segments and a
    texture whose id and extension hold no separator, [getTexturePath]
    names a file directly inside the [assets] folder of the project. *)
Theorem getTexturePath_inside_assets (base : Parts) (l : list string)
    (m : Manifest.t) (t : Texture.t) :
  Forall plain l ->
  no_sep (Texture.id t) = true -> no_sep (Texture.extension t) = true ->
  let p := {| path := {| basePathParts := base; pathParts := Arr l |};
              manifest := m |} in
  Tauri.locate (Io.absolute (ProjectManager.getTexturePath p t))
  = l ++ ["assets"; "texture_" +:+ Texture.id t +:+ Texture.extension t]
  /\ Tauri.parent (Tauri.locate (Io.absolute (ProjectManager.getTexturePath p t)))
     = Tauri.locate (Io.absolute (Io.join (path p) ["assets"])).
Proof.
  intros Hl Hid Hext p.
  destruct plain_literals as (_ & _ & HA & _).
  pose proof (texture_location base l m t Hl Hid Hext) as Hasset. fold p in Hasset.
  split; [exact Hasset |].
  rewrite Hasset, locate_absolute_join. cbn [path pathParts Io.spread].
  rewrite components_concat_with_sep
    by (apply Forall_app; split; [done | by repeat apply Forall_cons_2]).
  unfold Tauri.parent.
  change (l ++ ["assets"; "texture_" +:+ Texture.id t +:+ Texture.extension t])
    with (l ++ ["assets"] ++ ["texture_" +:+ Texture.id t +:+ Texture.extension t]).
  by rewrite app_assoc, removelast_last.
Qed.

Lemma getTexturePath_inside_assets_witness :
  Tauri.locate (Io.absolute (ProjectManager.getTexturePath gallery_project texture_a))
  = ["Rack Designer"; "Projects"; "demo"; "assets"; "texture_a.png"]
  /\ Tauri.parent
       (Tauri.locate (Io.absolute (ProjectManager.getTexturePath gallery_project texture_a)))
     = Tauri.locate (Io.absolute (Io.join (path gallery_project) ["assets"])).
Proof.
  apply (getTexturePath_inside_assets (Arr []) ["Rack Designer"; "Projects"; "demo"]
           (manifest gallery_project) texture_a); [| reflexivity | reflexivity].
  repeat (apply Forall_cons_2;
    [split_and!; [discriminate | discriminate | discriminate | reflexivity] |]).
  apply Forall_nil_2.
Defined.

Lemma str_length_app (a b : string) :
  String.length (a +:+ b) = (String.length a + String.length b)%nat.
Proof.
  induction a as [| c a IH]; [done |].
  change (String c a +:+ b) with (String c (a +:+ b)).
  cbn [String.length]. by rewrite IH.
Qed.

Lemma str_app_inv_head (a b c : string) : a +:+ b = a +:+ c -> b = c.
Proof.
  induction a as [| x a IH]; [done |].
  change (String x a +:+ b) with (String x (a +:+ b)).
  change (String x a +:+ c) with (String x (a +:+ c)).
  intros [= H]. by apply IH.
Qed.

Lemma str_app_inv_tail (a b c : string) : a +:+ c = b +:+ c -> a = b.
Proof.
  revert b. induction a as [| x a IH]; intros [| y b].
  - done.
  - change ("" +:+ c) with c. intros H. apply (f_equal String.length) in H.
    rewrite (str_length_app (String y b)) in H.
    cbn [String.length] in H. lia.
  - change ("" +:+ c) with c. intros H. apply (f_equal String.length) in H.
    rewrite (str_length_app (String x a)) in H.
    cbn [String.length] in H. lia.
  - change (String x a +:+ c) with (String x (a +:+ c)).
    change (String y b +:+ c) with (String y (b +:+ c)).
    intros [= -> H]. f_equal. by apply IH.
Qed.

(** X25.  Two textures of one project with different ids and the same
    extension have different asset files, the project path being made of
    plain segments and the ids and the extension holding no separator. *)
Theorem getTexturePath_distinct (base : Parts) (l : list string) (m : Manifest.t)
    (t1 t2 : Texture.t) :
  Forall plain l ->
  no_sep (Texture.id t1) = true -> no_sep (Texture.id t2) = true ->
  no_sep (Texture.extension t1) = true ->
  Texture.extension t1 = Texture.extension t2 ->
  Texture.id t1 <> Texture.id t2 ->
  let p := {| path := {| basePathParts := base; pathParts := Arr l |};
              manifest := m |} in
  Tauri.locate (Io.absolute (ProjectManager.getTexturePath p t1))
  <> Tauri.locate (Io.absolute (ProjectManager.getTexturePath p t2)).
Proof.
  intros Hl Hid1 Hid2 Hext Hsame Hids p. unfold p.
  rewrite (texture_location base l m t1 Hl Hid1 Hext).
  rewrite (texture_location base l m t2 Hl Hid2) by (by rewrite <- Hsame).
  intros Heq. apply app_inv_head in Heq. injection Heq as Heq.
  rewrite Hsame in Heq. apply str_app_inv_head in Heq.
  apply str_app_inv_tail in Heq. by apply Hids.
Qed.

Lemma getTexturePath_distinct_witness :
  Tauri.locate (Io.absolute (ProjectManager.getTexturePath gallery_project texture_a))
  <> Tauri.locate (Io.absolute (ProjectManager.getTexturePath gallery_project texture_c)).
Proof.
  apply (getTexturePath_distinct (Arr []) ["Rack Designer"; "Projects"; "demo"]
           (manifest gallery_project) texture_a texture_c);
    [| reflexivity | reflexivity | reflexivity | reflexivity | discriminate].
  repeat (apply Forall_cons_2;
    [split_and!; [discriminate | discriminate | discriminate | reflexivity] |]).
  apply Forall_nil_2.
Defined.

(** X26.  [removeTextureExample] answers [false] also when the asset
    file has been deleted and the record spliced out of the project
    object, the manifest write having failed afterwards: the rejection of
    [removeTexture] is caught and reported as no success. *)
Theorem removeTextureExample_hides_failure (s : Session) (textureId : string)
    (i : nat) (t : Texture.t) (w1 w2 : World) (e : Rejection) :
  first_with_id (Manifest.textures (manifest (project s))) textureId i t ->
  Io.remove (ProjectManager.getTexturePath (project s) t) false false (world s)
  = (Ok tt, w1) ->
  ProjectManager.saveManifest (without_texture i (time w1) (project s)) (now w1).2
  = (Err e, w2) ->
  ExampleUsage.removeTextureExample textureId s
  = (Ok false, {| project := without_texture i (time w1) (project s); world := w2 |})
  /\ Manifest.textures (manifest (without_texture i (time w1) (project s)))
     = delete i (Manifest.textures (manifest (project s))).
Proof.
  destruct s as [p w]. cbn [project world]. intros Hfirst Hrm Hsave.
  split; [| reflexivity].
  unfold ExampleUsage.removeTextureExample. rewrite bind_attempt.
  rewrite (removeTexture_found p w textureId i t Hfirst), Hrm. cbv zeta.
  rewrite Hsave. reflexivity.
Qed.

Lemma removeTextureExample_hides_failure_witness :
  let after := ExampleUsage.removeTextureExample "a" blocked_gallery in
  after.1 = Ok false
  /\ Manifest.textures (manifest (project blocked_gallery)) = [texture_a; texture_b]
  /\ Manifest.textures (manifest (project after.2)) = [texture_b].
Proof.
  intros after.
  assert (Hfirst : first_with_id [texture_a; texture_b] "a" 0 texture_a).
  { split_and!; [reflexivity | reflexivity |]. intros j t' Hj. lia. }
  pose (w1 := (Io.remove (ProjectManager.getTexturePath gallery_project texture_a)
                 false false (world blocked_gallery)).2).
  pose (w2 := (ProjectManager.saveManifest
                 (without_texture 0 (time w1) gallery_project) (now w1).2).2).
  destruct (removeTextureExample_hides_failure blocked_gallery "a" 0 texture_a w1 w2
              FsFailure Hfirst) as (Hrun & _);
    [vm_compute; reflexivity | vm_compute; reflexivity |].
  unfold after. rewrite Hrun.
  split_and!; [reflexivity | reflexivity | vm_compute; reflexivity].
Defined.
